(** * ESP32 power monitor: acquisition, analytics and delivery pipeline

    A shallow embedding of the firmware's core (PowerMonitor, AiProcessor,
    DataManager and the delivery step of the main loop) and the properties
    its specification states about it.

    Conventions of the embedding.
    - A C++ [float] is modelled at two levels.  Where a property depends
      on a rounded value (a computed value compared with a threshold, a
      value returned, a total accumulated), [float] is IEEE-754 binary32
      and [double] is binary64, after the standard library's [SpecFloat]:
      every operation rounds to nearest, ties to even, the conversions
      the compiler inserts between the two types are written out, and
      products and sums are not fused (modules [Single], [Double],
      [PowerMonitorF], [AiProcessorF]).  Where a property is about what
      is stored or left unchanged, about order or about sign, [float] is
      a real number ([R]) with exact arithmetic (modules [PowerMonitor],
      [AiProcessor]): rounding and the special values (NaN, infinities)
      are not represented there, and [sqrt] is the real square root,
      which agrees with the C function on non-negative arguments.
    - An [unsigned long] is an integer ([Z]) in [0, 2^32); subtraction wraps
      around modulo [2^32] and the wrap-around is written out.
    - A [std::vector] or [std::deque] is a [list], oldest element first.
    - The HTTP transport and the clock are inputs: the clock reading is an
      argument, the transport is a function giving the status code of the
      k-th POST, and every POST and delay is recorded in a trace.
    - Logging on the serial port is left out, except in [analyzeTrend],
      whose only result is what it prints: the printed classification is
      its return value.
    - The libraries behind the network manager, the button, the display
      and the stored configuration (Wi-Fi, NTP, GPIO, TFT, SPIFFS,
      ArduinoJson) are not modelled: what the code asks of them is
      recorded as a list of actions, what they return is an input. *)

From Stdlib Require Import String DecimalString Reals ZArith List Bool.
From Stdlib Require Import Arith Lia Lra Psatz.
From Stdlib Require SpecFloat.
Import ListNotations.

Local Open Scope R_scope.

(** ** Config.h *)

Module Config.

Definition DEVICE_NAME : string := "ESP32_Power_Monitor".

Definition MAINS_VOLTAGE : R := 230.
Definition CT_BURDEN_RESISTOR : R := 33.
Definition CT_TURNS_RATIO : R := 2000.
Definition ADC_BITS : Z := 12.
Definition ADC_COUNTS : Z := Z.shiftl 1 ADC_BITS.
Definition VREF : R := 3.3.
Definition SAMPLES_PER_CYCLE : nat := 100.

Definition MAX_RETRY_ATTEMPTS : nat := 3.
Definition DATA_BUFFER_SIZE : nat := 100.

Definition ANOMALY_THRESHOLD : R := 0.2.
Definition TREND_WINDOW_SIZE : nat := 10.

(** [struct PowerData] *)
Record PowerData : Type := mkPowerData {
  timestamp : Z;
  current : R;
  voltage : R;
  power : R;
  energy : R;
  anomaly : bool
}.

(** Width of [unsigned long] on the target (ESP32, 32 bits). *)
Definition ULONG_MODULUS : Z := 2 ^ 32.

(** [a - b] on [unsigned long]. *)
Definition ulong_sub (a b : Z) : Z := (a - b) mod ULONG_MODULUS.

End Config.

Import Config.

(** ** PowerMonitor *)

Module PowerMonitor.

(** The private fields of [class PowerMonitor]. *)
Record t : Type := mk {
  currentRMS : R;
  mainVoltage : R;
  powerWatts : R;
  energyKwh : R;
  lastEnergyCalcTime : Z;
  calibrationFactor : R
}.

(** [PowerMonitor::PowerMonitor()] *)
Definition init : t :=
  {| currentRMS := 0;
     mainVoltage := MAINS_VOLTAGE;
     powerWatts := 0;
     energyKwh := 0;
     lastEnergyCalcTime := 0;
     calibrationFactor := 1 |}.

(** [PowerMonitor::begin()], with the reading of [millis()] as [now]. *)
Definition begin (now : Z) (pm : t) : t :=
  {| currentRMS := currentRMS pm;
     mainVoltage := mainVoltage pm;
     powerWatts := powerWatts pm;
     energyKwh := energyKwh pm;
     lastEnergyCalcTime := now;
     calibrationFactor := calibrationFactor pm |}.


(** [PowerMonitor::setVoltage(float v)] *)
Definition setVoltage (v : R) (pm : t) : t :=
  if Rlt_dec 0 v then
    {| currentRMS := currentRMS pm;
       mainVoltage := v;
       powerWatts := powerWatts pm;
       energyKwh := energyKwh pm;
       lastEnergyCalcTime := lastEnergyCalcTime pm;
       calibrationFactor := calibrationFactor pm |}
  else pm.

(** The body of the sampling loop of [readCurrentSensor] for one ADC
    value: the squared offset of the sample's voltage from the midpoint. *)
Definition sampleSquared (adcValue : Z) : R :=
  let voltage := (IZR adcValue / IZR ADC_COUNTS) * VREF in
  let voltageOffset := voltage - (VREF / 2) in
  voltageOffset * voltageOffset.

(** [PowerMonitor::readCurrentSensor()]; [analogRead i] is the value the
    i-th call of [analogRead] of this cycle returns. *)
Definition readCurrentSensor (analogRead : nat -> Z) : R :=
  let sampleCount := SAMPLES_PER_CYCLE in
  let sumSquared :=
    fold_left (fun acc i => acc + sampleSquared (analogRead i))
              (seq 0 sampleCount) 0 in
  sumSquared / INR sampleCount.

(** [PowerMonitor::calculateRMSCurrent(float meanSquared)] *)
Definition calculateRMSCurrent (meanSquared : R) (pm : t) : R :=
  let rmsVoltage := sqrt meanSquared in
  let rmsCurrent := (rmsVoltage / CT_BURDEN_RESISTOR) * CT_TURNS_RATIO in
  let rmsCurrent := rmsCurrent * calibrationFactor pm in
  if Rlt_dec rmsCurrent 0.05 then 0 else rmsCurrent.

(** [PowerMonitor::calculatePower()] *)
Definition calculatePower (pm : t) : t :=
  {| currentRMS := currentRMS pm;
     mainVoltage := mainVoltage pm;
     powerWatts := currentRMS pm * mainVoltage pm;
     energyKwh := energyKwh pm;
     lastEnergyCalcTime := lastEnergyCalcTime pm;
     calibrationFactor := calibrationFactor pm |}.

(** [PowerMonitor::updateEnergy()], with the reading of [millis()] as
    [currentTime]. *)
Definition updateEnergy (currentTime : Z) (pm : t) : t :=
  let timeDelta := ulong_sub currentTime (lastEnergyCalcTime pm) in
  if (0 <? timeDelta)%Z then
    let hoursElapsed := IZR timeDelta / 3600000 in
    let energyIncrement := powerWatts pm * hoursElapsed / 1000 in
    {| currentRMS := currentRMS pm;
       mainVoltage := mainVoltage pm;
       powerWatts := powerWatts pm;
       energyKwh := energyKwh pm + energyIncrement;
       lastEnergyCalcTime := currentTime;
       calibrationFactor := calibrationFactor pm |}
  else pm.

(** [PowerMonitor::update()] *)
Definition update (analogRead : nat -> Z) (currentTime : Z) (pm : t) : t :=
  let rawCurrent := readCurrentSensor analogRead in
  let pm1 :=
    {| currentRMS := calculateRMSCurrent rawCurrent pm;
       mainVoltage := mainVoltage pm;
       powerWatts := powerWatts pm;
       energyKwh := energyKwh pm;
       lastEnergyCalcTime := lastEnergyCalcTime pm;
       calibrationFactor := calibrationFactor pm |} in
  updateEnergy currentTime (calculatePower pm1).

End PowerMonitor.

(** ** AiProcessor *)

Module AiProcessor.

(** The private fields of [class AiProcessor]. *)
Record t : Type := mk {
  dataHistory : list PowerData;
  powerPrediction : R
}.

(** [AiProcessor::AiProcessor()] *)
Definition init : t := {| dataHistory := []; powerPrediction := 0 |}.

(** [AiProcessor::begin()] *)
Definition begin (ai : t) : t :=
  {| dataHistory := []; powerPrediction := powerPrediction ai |}.

(** [dataHistory[i].power]; the callers check the size first. *)
Definition powerAt (ai : t) (i : nat) : R :=
  nth i (map power (dataHistory ai)) 0.

(** [AiProcessor::calculateMovingAverage(float value)] *)
Definition calculateMovingAverage (value : R) (ai : t) : R :=
  match dataHistory ai with
  | [] => value
  | _ :: _ =>
      let sum := fold_left (fun s d => s + power d) (dataHistory ai) 0 in
      sum / INR (length (dataHistory ai))
  end.

(** [AiProcessor::calculateStandardDeviation()] *)
Definition calculateStandardDeviation (ai : t) : R :=
  if (length (dataHistory ai) <? 2)%nat then 0
  else
    let mean := fold_left (fun m d => m + power d) (dataHistory ai) 0 in
    let mean := mean / INR (length (dataHistory ai)) in
    let sumSqDiff :=
      fold_left (fun s d => let diff := power d - mean in s + diff * diff)
                (dataHistory ai) 0 in
    sqrt (sumSqDiff / INR (length (dataHistory ai) - 1)).

(** [AiProcessor::detectAnomaly(const PowerData &data)] *)
Definition detectAnomaly (data : PowerData) (ai : t) : bool :=
  if (length (dataHistory ai) <? 3)%nat then false
  else
    let avg := calculateMovingAverage (power data) ai in
    let stdDev := calculateStandardDeviation ai in
    let deviation := Rabs (power data - avg) in
    if Rlt_dec (stdDev * ANOMALY_THRESHOLD) deviation then true else false.

(** What [analyzeTrend] prints: the classification and, for a rising or
    falling trend, the percentage printed with it. *)
Inductive TrendReport : Type :=
| NotEnoughData
| Stable
| Increasing (percent : R)
| Decreasing (percent : R).

(** [AiProcessor::analyzeTrend()] *)
Definition analyzeTrend (ai : t) : TrendReport :=
  if (length (dataHistory ai) <? TREND_WINDOW_SIZE)%nat then NotEnoughData
  else
    let half := (TREND_WINDOW_SIZE / 2)%nat in
    let firstAvg :=
      fold_left (fun a i => a + powerAt ai i) (seq 0 half) 0 in
    let firstAvg := firstAvg / INR half in
    let lastAvg :=
      fold_left (fun a i => a + powerAt ai i)
                (seq half (TREND_WINDOW_SIZE - half)) 0 in
    let lastAvg := lastAvg / INR half in
    let change := lastAvg - firstAvg in
    let percentChange := (change / firstAvg) * 100 in
    if Rlt_dec (Rabs percentChange) 5 then Stable
    else if Rlt_dec 0 percentChange then Increasing percentChange
    else Decreasing (- percentChange).

(** [AiProcessor::getPredictedPower()] *)
Definition getPredictedPower (ai : t) : R := powerPrediction ai.

(** The accumulators of the regression loop of [updatePrediction]. *)
Record Sums : Type := mkSums {
  sumX : R;
  sumY : R;
  sumXY : R;
  sumX2 : R
}.

(** One iteration of the regression loop, at index [i]. *)
Definition accumulate (ai : t) (s : Sums) (i : nat) : Sums :=
  let x := INR i in
  let y := powerAt ai i in
  {| sumX := sumX s + x;
     sumY := sumY s + y;
     sumXY := sumXY s + x * y;
     sumX2 := sumX2 s + x * x |}.

(** [AiProcessor::updatePrediction()] *)
Definition updatePrediction (ai : t) : t :=
  if (length (dataHistory ai) <? 2)%nat then
    match dataHistory ai with
    | [] => ai
    | d :: ds =>
        {| dataHistory := dataHistory ai;
           powerPrediction := power (last ds d) |}
    end
  else
    let n := length (dataHistory ai) in
    let s := fold_left (accumulate ai) (seq 0 n) (mkSums 0 0 0 0) in
    let slope :=
      (INR n * sumXY s - sumX s * sumY s)
      / (INR n * sumX2 s - sumX s * sumX s) in
    let intercept := (sumY s - slope * sumX s) / INR n in
    let prediction := intercept + slope * INR n in
    {| dataHistory := dataHistory ai;
       powerPrediction := if Rlt_dec prediction 0 then 0 else prediction |}.

(** [AiProcessor::update(const PowerData &data)] *)
Definition update (data : PowerData) (ai : t) : t :=
  let pushed := dataHistory ai ++ [data] in
  let history :=
    if (TREND_WINDOW_SIZE <? length pushed)%nat then tl pushed
    else pushed in
  updatePrediction
    {| dataHistory := history; powerPrediction := powerPrediction ai |}.

End AiProcessor.

(** ** Textbook statistics, as the specification words them *)

Module Stats.

(** Sum of a list of reals. *)
Definition total (xs : list R) : R := fold_right Rplus 0 xs.

(** Sample mean. *)
Definition sample_mean (xs : list R) : R := total xs / INR (length xs).

(** Sample standard deviation, with the [n - 1] divisor. *)
Definition sample_stddev (xs : list R) : R :=
  let m := sample_mean xs in
  sqrt (total (map (fun x => (x - m) * (x - m)) xs)
        / (INR (length xs) - 1)).





End Stats.

(** ** Trend classification, as the specification words it *)

Module TrendSpec.

(** Percent change from the first-half mean to the second-half mean. *)
Definition percentChange (firstAvg lastAvg : R) : R :=
  (lastAvg - firstAvg) / firstAvg * 100.

(** Below 5% in magnitude the trend is stable; otherwise a positive change
    is increasing and a negative one decreasing, each reported with the
    magnitude of the percentage. *)
Definition classify (firstAvg lastAvg : R) : AiProcessor.TrendReport :=
  let pct := percentChange firstAvg lastAvg in
  if Rlt_dec (Rabs pct) 5 then AiProcessor.Stable
  else if Rlt_dec 0 pct then AiProcessor.Increasing pct
  else AiProcessor.Decreasing (- pct).

End TrendSpec.

(** ** The world outside: HTTP transport and delays *)

Module IO.

(** A JSON document as [ArduinoJson] builds it: keys with their values,
    in insertion order. *)
Inductive JsonValue : Type :=
| JInt (z : Z)
| JFloat (r : R)
| JString (s : string).

Definition Json : Type := list (string * JsonValue).

(** What the firmware does to the outside world. *)
Inductive Event : Type :=
| POST (url : string) (payload : Json)
| Delay (ms : Z).

(** [transport k] is the value [HTTPClient::POST] returns to the k-th
    POST since boot: an HTTP status code when positive, a connection
    error otherwise.  [posts] counts the POSTs made, [trace] records
    every POST and delay, oldest first. *)
Record World : Type := mkWorld {
  transport : nat -> Z;
  posts : nat;
  trace : list Event
}.

(** Computations that act on the world. *)
Definition M (A : Type) : Type := World -> A * World.

Definition ret {A : Type} (a : A) : M A := fun w => (a, w).

Definition bind {A B : Type} (m : M A) (k : A -> M B) : M B :=
  fun w => let (a, w') := m w in k a w'.

(** [http.POST(payload)] on a client begun at [url]. *)
Definition http_POST (url : string) (payload : Json) : M Z :=
  fun w =>
    (transport w (posts w),
     {| transport := transport w;
        posts := S (posts w);
        trace := trace w ++ [POST url payload] |}).

(** [delay(ms)] *)
Definition delay (ms : Z) : M unit :=
  fun w =>
    (tt,
     {| transport := transport w;
        posts := posts w;
        trace := trace w ++ [Delay ms] |}).

(** A fresh world over a transport. *)
Definition boot (tr : nat -> Z) : World :=
  {| transport := tr; posts := 0; trace := [] |}.

End IO.

Import IO.

Notation "x <- m ;; k" := (bind m (fun x => k))
  (at level 61, m at next level, right associativity).
Notation "m ;;; k" := (bind m (fun _ => k))
  (at level 61, right associativity).

(** ** DataManager *)

Module DataManager.

(** [HTTP_CODE_OK] of the HTTPClient library. *)
Definition HTTP_CODE_OK : Z := 200.

(** The private fields of [class DataManager]. *)
Record t : Type := mk {
  backendUrl : string;
  dataBuffer : list PowerData
}.

Definition DEFAULT_BACKEND_URL : string :=
  "http://192.168.1.100:8000/api/power-data".

(** [DataManager::DataManager()] *)
Definition init : t :=
  {| backendUrl := DEFAULT_BACKEND_URL; dataBuffer := [] |}.

(** [DataManager::convertDataToJson(const PowerData &data)] *)
Definition convertDataToJson (data : PowerData) : Json :=
  [ ("timestamp"%string, JInt (timestamp data));
    ("current_amps"%string, JFloat (current data));
    ("voltage_volts"%string, JFloat (voltage data));
    ("power_watts"%string, JFloat (power data));
    ("energy_kwh"%string, JFloat (energy data));
    ("device_id"%string, JString DEVICE_NAME) ].

(** The [while] loop of [sendJsonToBackend], from the loop variables
    [success] and [retryCount]; it returns their final values.  [fuel]
    bounds the number of iterations. *)
Fixpoint retryLoop (fuel : nat) (url : string) (jsonPayload : Json)
    (success : bool) (retryCount : nat) : M (bool * nat) :=
  if negb success && (retryCount <? MAX_RETRY_ATTEMPTS)%nat then
    match fuel with
    | O => ret (success, retryCount)
    | S fuel' =>
        httpResponseCode <- http_POST url jsonPayload ;;
        let success :=
          if (0 <? httpResponseCode)%Z then
            if (httpResponseCode =? HTTP_CODE_OK)%Z then true else success
          else success in
        if negb success then
          let retryCount := S retryCount in
          (if (retryCount <? MAX_RETRY_ATTEMPTS)%nat
           then delay (500 * Z.of_nat retryCount)
           else ret tt) ;;;
          retryLoop fuel' url jsonPayload success retryCount
        else
          retryLoop fuel' url jsonPayload success retryCount
    end
  else ret (success, retryCount).

(** [DataManager::sendJsonToBackend(const String &jsonPayload)]; the loop
    ends within [MAX_RETRY_ATTEMPTS] iterations
    ([sendJsonToBackend_loop_exits]). *)
Definition sendJsonToBackend (jsonPayload : Json) (dm : t) : M bool :=
  r <- retryLoop MAX_RETRY_ATTEMPTS (backendUrl dm) jsonPayload false 0 ;;
  ret (fst r).

(** [DataManager::sendData(const PowerData &data)] *)
Definition sendData (data : PowerData) (dm : t) : M bool :=
  let jsonPayload := convertDataToJson data in
  sendJsonToBackend jsonPayload dm.

(** [DataManager::bufferData(const PowerData &data)] *)
Definition bufferData (data : PowerData) (dm : t) : t :=
  if (length (dataBuffer dm) <? DATA_BUFFER_SIZE)%nat then
    {| backendUrl := backendUrl dm;
       dataBuffer := dataBuffer dm ++ [data] |}
  else
    {| backendUrl := backendUrl dm;
       dataBuffer := tl (dataBuffer dm) ++ [data] |}.

(** [DataManager::hasBufferedData()] *)
Definition hasBufferedData (dm : t) : bool :=
  match dataBuffer dm with
  | [] => false
  | _ :: _ => true
  end.

(** The [for] loop of [sendBufferedData] over the items still to visit,
    with [failedTransmissions] as accumulated so far. *)
Fixpoint sendEach (dm : t) (items failedTransmissions : list PowerData)
    : M (list PowerData) :=
  match items with
  | [] => ret failedTransmissions
  | data :: rest =>
      ok <- sendData data dm ;;
      let failedTransmissions :=
        if negb ok then failedTransmissions ++ [data]
        else failedTransmissions in
      delay 100 ;;;
      sendEach dm rest failedTransmissions
  end.

(** [DataManager::sendBufferedData()]: the returned flag and the
    manager afterwards. *)
Definition sendBufferedData (dm : t) : M (bool * t) :=
  match dataBuffer dm with
  | [] => ret (true, dm)
  | _ :: _ =>
      let initialSize := length (dataBuffer dm) in
      failedTransmissions <- sendEach dm (dataBuffer dm) [] ;;
      let dm' :=
        {| backendUrl := backendUrl dm;
           dataBuffer := failedTransmissions |} in
      ret ((length (dataBuffer dm') <? initialSize)%nat, dm')
  end.

End DataManager.

(** ** The delivery step of the main loop *)

Module Main.

(** The "send or buffer" part of [loop()], for the reading [data] of this
    cycle; [connected] is what [networkManager.isConnected()] returns. *)
Definition deliver (connected : bool) (data : PowerData)
    (dm : DataManager.t) : M DataManager.t :=
  if connected then
    dm <- (if DataManager.hasBufferedData dm
           then r <- DataManager.sendBufferedData dm ;; ret (snd r)
           else ret dm) ;;
    success <- DataManager.sendData data dm ;;
    if negb success then ret (DataManager.bufferData data dm)
    else ret dm
  else ret (DataManager.bufferData data dm).

(** The operations on the delivery buffer. *)
Inductive BufferOp : Type :=
| BufferData (data : PowerData)
| SendBufferedData.

Definition step (op : BufferOp) (dm : DataManager.t) : M DataManager.t :=
  match op with
  | BufferData data => ret (DataManager.bufferData data dm)
  | SendBufferedData =>
      r <- DataManager.sendBufferedData dm ;; ret (snd r)
  end.

(** A sequence of buffer operations, in order. *)
Fixpoint run (ops : list BufferOp) (dm : DataManager.t)
    : M DataManager.t :=
  match ops with
  | [] => ret dm
  | op :: rest => dm' <- step op dm ;; run rest dm'
  end.

End Main.

(** ** The delivery policy, as the specification words it *)

Module DeliverySpec.

(** The status code that counts as success. *)
Definition isOk (code : Z) : bool := (code =? 200)%Z.

(** Number of attempts one send makes when the responses it will get are
    [tr start], [tr (start + 1)], ...: it stops at the first success and
    gives up after [k] attempts. *)
Fixpoint attemptsNeeded (k : nat) (tr : nat -> Z) (start : nat) : nat :=
  match k with
  | O => O
  | S k' =>
      if isOk (tr start) then 1%nat
      else S (attemptsNeeded k' tr (S start))
  end.

(** Whether some attempt among the [k] allowed receives the OK status. *)
Definition delivered (k : nat) (tr : nat -> Z) (start : nat) : bool :=
  existsb (fun i => isOk (tr (start + i)%nat)) (seq 0 k).

(** The events of [n] attempts made after [c] failed ones: a POST each,
    and before the attempt that follows the j-th failure a delay of
    [500 * j] ms. *)
Definition attemptEventsFrom (c : nat) (url : string) (payload : Json)
    (n : nat) : list Event :=
  match n with
  | O => []
  | S m =>
      POST url payload
      :: flat_map (fun j => [Delay (500 * Z.of_nat j); POST url payload])
                  (seq (S c) m)
  end.

(** The events of the [n] attempts of one send. *)
Definition attemptEvents (url : string) (payload : Json) (n : nat)
    : list Event :=
  attemptEventsFrom 0 url payload n.

(** What happened to one buffered reading during a drain. *)
Record Attempted : Type := mkAttempted {
  reading : PowerData;
  attempts : nat;
  wasDelivered : bool
}.

(** Draining a buffer: each reading is sent on its own, oldest first,
    and uses up as many responses as it makes attempts. *)
Fixpoint drain (k : nat) (tr : nat -> Z) (start : nat)
    (items : list PowerData) : list Attempted :=
  match items with
  | [] => []
  | d :: rest =>
      let n := attemptsNeeded k tr start in
      mkAttempted d n (delivered k tr start)
      :: drain k tr (start + n) rest
  end.

(** The readings a drain retains: those not delivered, in order. *)
Definition retained (plan : list Attempted) : list PowerData :=
  map reading (filter (fun a => negb (wasDelivered a)) plan).

(** The events of a drain: for each reading its attempts, then the
    100 ms pause that follows every buffered item. *)
Definition drainEvents (url : string) (plan : list Attempted)
    : list Event :=
  flat_map
    (fun a =>
       attemptEvents url (DataManager.convertDataToJson (reading a))
                     (attempts a)
       ++ [Delay 100])
    plan.

(** The responses a drain uses up. *)
Definition drainPosts (plan : list Attempted) : nat :=
  list_sum (map attempts plan).

End DeliverySpec.

(** ** Time spent waiting and requests made *)

Module Timing.

(** Total of the delays recorded in a list of events, in ms. *)
Definition delayTotal (events : list Event) : Z :=
  fold_right
    (fun e acc => match e with Delay ms => (ms + acc)%Z | POST _ _ => acc end)
    0%Z events.

(** The payloads POSTed in a list of events, in order. *)
Definition payloads (events : list Event) : list Json :=
  flat_map
    (fun e => match e with POST _ p => [p] | Delay _ => [] end)
    events.

End Timing.

(** ** One measurement cycle of the main loop *)

Module Cycle.

(** [currentMillis - last >= interval] on [unsigned long]: the test that
    gates the sending block and the analytics block of [loop()]. *)
Definition due (currentMillis last interval : Z) : bool :=
  (interval <=? ulong_sub currentMillis last)%Z.

Definition sendInterval : Z := 5000.
Definition aiProcessInterval : Z := 60000.


(** [data.anomaly = flag] *)
Definition withAnomaly (data : PowerData) (flag : bool) : PowerData :=
  {| timestamp := timestamp data;
     current := current data;
     voltage := voltage data;
     power := power data;
     energy := energy data;
     anomaly := flag |}.


(** The analytics block of [loop()]: what it prints. *)
Definition report (ai : AiProcessor.t) : AiProcessor.TrendReport * R :=
  (AiProcessor.analyzeTrend ai, AiProcessor.getPredictedPower ai).

(** The delivery steps of a run of cycles, one per reading, each with the
    connectivity seen in that cycle. *)
Fixpoint deliverAll (cycles : list (bool * PowerData)) (dm : DataManager.t)
    : M DataManager.t :=
  match cycles with
  | [] => ret dm
  | (connected, data) :: rest =>
      dm' <- Main.deliver connected data dm ;;
      deliverAll rest dm'
  end.

End Cycle.

(** ** NetworkManager *)

Module NetworkManager.

(** [CONNECTION_TIMEOUT] of Config.h. *)
Definition CONNECTION_TIMEOUT : Z := 10000.

(** The private fields of [class NetworkManager] that [update] uses; the
    WiFiManager instance is a library object and is left out. *)
Record t : Type := mk {
  connected : bool;
  lastReconnectAttempt : Z;
  ntpConfigured : bool;
  otaEnabled : bool
}.

(** [NetworkManager::NetworkManager()] *)
Definition init : t :=
  {| connected := false;
     lastReconnectAttempt := 0;
     ntpConfigured := false;
     otaEnabled := false |}.

(** What the manager asks of the libraries and the hardware. *)
Inductive Action : Type :=
| Led (on : bool)
| AutoConnect
| ConfigTime
| Wait (ms : Z)
| PortalProcess
| OTABegin
| OTAHandle.

(** The Wi-Fi events the handler tells apart. *)
Inductive WiFiEvent : Type :=
| STA_GOT_IP
| STA_DISCONNECTED
| OtherEvent.

(** [NetworkManager::wifiEventHandler]: the static flag [s_connected]
    afterwards, and the LED switched off on getting an address. *)
Definition wifiEventHandler (event : WiFiEvent) (s_connected : bool)
    : bool * list Action :=
  match event with
  | STA_GOT_IP => (true, [Led false])
  | STA_DISCONNECTED => (false, [])
  | OtherEvent => (s_connected, [])
  end.

(** [NetworkManager::connectToWifi()]; [joined] is what
    [wifiManager.autoConnect] returns. *)
Definition connectToWifi (joined : bool) : list Action :=
  [Led true; AutoConnect] ++ (if joined then [] else [Led false]).

(** The waiting loop of [configureNTP], from the loop variable [retry]; it
    returns its final value.  [timeNow k] is what the k-th call of
    [time(nullptr)] of this wait returns; [fuel] bounds the iterations. *)
Fixpoint ntpWait (fuel : nat) (timeNow : nat -> Z) (retry : nat) : nat :=
  if (timeNow retry <? 24 * 3600)%Z && (retry <? 10)%nat then
    match fuel with
    | O => retry
    | S fuel' => ntpWait fuel' timeNow (S retry)
    end
  else retry.

(** [NetworkManager::configureNTP()] *)
Definition configureNTP (timeNow : nat -> Z) (nm : t) : t * list Action :=
  let retry := ntpWait 10 timeNow 0 in
  let waits := repeat (Wait 1000) retry in
  if (retry <? 10)%nat then (nm, ConfigTime :: waits)
  else
    ({| connected := connected nm;
        lastReconnectAttempt := lastReconnectAttempt nm;
        ntpConfigured := false;
        otaEnabled := otaEnabled nm |},
     ConfigTime :: waits).

(** What one call of [update] reads from outside: the static flag
    [s_connected], the clock, the outcome of a connection attempt and the
    wall clock during a time synchronisation. *)
Record Inputs : Type := mkInputs {
  s_connected : bool;
  currentMillis : Z;
  joined : bool;
  timeNow : nat -> Z
}.

(** [NetworkManager::update()] *)
Definition update (i : Inputs) (nm : t) : t * list Action :=
  let nm :=
    {| connected := s_connected i;
       lastReconnectAttempt := lastReconnectAttempt nm;
       ntpConfigured := ntpConfigured nm;
       otaEnabled := otaEnabled nm |} in
  let (nm, acts) :=
    if negb (connected nm) then
      if (CONNECTION_TIMEOUT
          <? ulong_sub (currentMillis i) (lastReconnectAttempt nm))%Z
      then
        ({| connected := connected nm;
            lastReconnectAttempt := currentMillis i;
            ntpConfigured := ntpConfigured nm;
            otaEnabled := otaEnabled nm |},
         connectToWifi (joined i))
      else (nm, [])
    else
      if negb (ntpConfigured nm) then
        let (nm, acts) := configureNTP (timeNow i) nm in
        ({| connected := connected nm;
            lastReconnectAttempt := lastReconnectAttempt nm;
            ntpConfigured := true;
            otaEnabled := otaEnabled nm |},
         acts)
      else (nm, []) in
  (nm, acts ++ [PortalProcess] ++ (if otaEnabled nm then [OTAHandle] else [])).

(** [NetworkManager::isConnected()] *)
Definition isConnected (nm : t) : bool := connected nm.

(** [NetworkManager::getTimestamp()]; [now] is what [time(&now)] stores
    and [millis] what [millis()] returns. *)
Definition getTimestamp (now millis : Z) (nm : t) : Z :=
  if ntpConfigured nm then now else millis.

(** [NetworkManager::enableOTA(bool enable)] *)
Definition enableOTA (enable : bool) (nm : t) : t * list Action :=
  ({| connected := connected nm;
      lastReconnectAttempt := lastReconnectAttempt nm;
      ntpConfigured := ntpConfigured nm;
      otaEnabled := enable |},
   if enable then [OTABegin] else []).

(** How often a list of actions starts a time synchronisation, and how
    often it tries to join the network. *)
Definition timeSyncs (acts : list Action) : nat :=
  length (filter (fun a => match a with ConfigTime => true | _ => false end)
                 acts).

Definition connectAttempts (acts : list Action) : nat :=
  length (filter (fun a => match a with AutoConnect => true | _ => false end)
                 acts).

(** A run of calls of [update], in order, with all the actions asked. *)
Fixpoint updates (inputs : list Inputs) (nm : t) : t * list Action :=
  match inputs with
  | [] => (nm, [])
  | i :: rest =>
      let (nm1, acts1) := update i nm in
      let (nm2, acts2) := updates rest nm1 in
      (nm2, acts1 ++ acts2)
  end.

End NetworkManager.

(** ** The configuration button of the main program *)

Module ConfigButton.

(** [HIGH] and [LOW] of the Arduino core. *)
Definition HIGH : Z := 1.
Definition LOW : Z := 0.

Definition debounceDelay : Z := 50.

(** The globals [lastButtonState] and [lastDebounceTime]. *)
Record t : Type := mk {
  lastButtonState : Z;
  lastDebounceTime : Z
}.

Definition init : t := {| lastButtonState := HIGH; lastDebounceTime := 0 |}.

(** [checkConfigButton()]: the globals afterwards and whether the
    configuration portal was started.  [reading] is what [digitalRead]
    returns, [millisAtChange] the clock read when the reading differs from
    the last one, [millisAtCheck] the clock read by the stability test. *)
Definition checkConfigButton (reading millisAtChange millisAtCheck : Z)
    (s : t) : t * bool :=
  let lastDebounceTime :=
    if negb (reading =? lastButtonState s)%Z then millisAtChange
    else lastDebounceTime s in
  let started :=
    if (debounceDelay <? ulong_sub millisAtCheck lastDebounceTime)%Z then
      if (reading =? LOW)%Z then true else false
    else false in
  ({| lastButtonState := reading; lastDebounceTime := lastDebounceTime |},
   started).

End ConfigButton.

(** ** The progress bar of the display variant *)

Module Display.

(** Colours of the TFT_eSPI library. *)
Definition TFT_BLACK : Z := 0.
Definition TFT_WHITE : Z := 65535.
Definition TFT_DARKGREY : Z := 31727.
Definition TFT_GREEN : Z := 2016.

(** The calls made on the display. *)
Inductive Draw : Type :=
| DrawRect (x y w h color : Z)
| FillRect (x y w h color : Z)
| SetTextSize (size : Z)
| SetTextColor (color : Z)
| SetCursor (x y : Z)
| Print (text : string).

(** Conversions to [uint8_t], [uint16_t] and [int16_t]. *)
Definition to_uint8 (z : Z) : Z := z mod 2 ^ 8.
Definition to_uint16 (z : Z) : Z := z mod 2 ^ 16.
Definition to_int16 (z : Z) : Z := (z + 2 ^ 15) mod 2 ^ 16 - 2 ^ 15.

(** [String(percent)] for an unsigned value. *)
Definition decimal (z : Z) : string :=
  NilZero.string_of_uint (N.to_uint (Z.to_N z)).

(** [drawProgressBar(x, y, w, h, percent, frameColor, barColor)]; the
    arguments are [uint16_t] ([percent] is [uint8_t]) and the arithmetic on
    them is done on [int], where it cannot overflow. *)
Definition drawProgressBar (x y w h percent frameColor barColor : Z)
    : list Draw :=
  let barWidth := to_uint16 (((w - 4) * percent) ÷ 100) in
  let percentText := (decimal percent ++ "%")%string in
  let textWidth := to_int16 (Z.of_nat (String.length percentText) * 6) in
  let textX := to_int16 (x + (w - textWidth) ÷ 2) in
  let textY := to_int16 (y + (h - 8) ÷ 2 + 1) in
  [ DrawRect x y w h frameColor;
    FillRect (x + 2) (y + 2) barWidth (h - 4) barColor;
    FillRect (x + 2 + barWidth) (y + 2) (w - 4 - barWidth) (h - 4) TFT_BLACK;
    SetTextSize 1;
    SetTextColor TFT_WHITE;
    SetCursor textX textY;
    Print percentText ].

(** [(int) r]: truncation towards zero (defined for values within the
    range of [int]). *)
Definition truncate (r : R) : Z :=
  if Rle_dec 0 r then Int_part r else (- Int_part (- r))%Z.

(** The percentage [displayData] computes for the bar graph, as the
    [uint8_t] that [drawProgressBar] receives. *)
Definition usagePercent (powerWatts : R) : Z :=
  let maxPower := 2000%Z in
  let percent := Z.min 100 (truncate (powerWatts * 100 / IZR maxPower)) in
  to_uint8 percent.

(** The bar-graph call of [displayData]; [width] is what [tft.width()]
    returns. *)
Definition usageBar (width : Z) (powerWatts : R) : list Draw :=
  drawProgressBar 10 145 (to_uint16 (width - 20)) 20
                  (usagePercent powerWatts) TFT_DARKGREY TFT_GREEN.

End Display.

(** ** The stored configuration of the DataManager *)

Module Storage.

(** What the file [/config.json] holds, as far as [deserializeJson] tells:
    a JSON document or something it rejects (an empty file included). *)
Inductive Content : Type :=
| Malformed
| Document (doc : Json).

(** The file as SPIFFS presents it: absent, present but not openable, or
    present with its content. *)
Inductive File : Type :=
| Absent
| Unopenable
| Holds (content : Content).

(** [doc[key]]: the value bound to a key, if any. *)
Definition lookup (key : string) (doc : Json) : option JsonValue :=
  match find (fun kv => String.eqb (fst kv) key) doc with
  | Some kv => Some (snd kv)
  | None => None
  end.

(** [variant.as<String>()]: the string itself for a string value; for any
    other value what the library makes of it, [other]. *)
Definition asString (other : JsonValue -> string) (v : JsonValue) : string :=
  match v with
  | JString s => s
  | _ => other v
  end.

(** [DataManager::loadConfig()] *)
Definition loadConfig (other : JsonValue -> string) (file : File)
    (dm : DataManager.t) : bool * DataManager.t :=
  match file with
  | Absent => (false, dm)
  | Unopenable => (false, dm)
  | Holds Malformed => (false, dm)
  | Holds (Document doc) =>
      match lookup "backend_url" doc with
      | Some v =>
          (true,
           {| DataManager.backendUrl := asString other v;
              DataManager.dataBuffer := DataManager.dataBuffer dm |})
      | None => (true, dm)
      end
  end.

(** [DataManager::saveConfig()]; [opened] tells whether the file could be
    opened for writing (which empties it), [written] whether
    [serializeJson] wrote anything. *)
Definition saveConfig (opened written : bool) (dm : DataManager.t)
    (file : File) : bool * File :=
  let doc := [("backend_url"%string, JString (DataManager.backendUrl dm))] in
  if negb opened then (false, file)
  else if negb written then (false, Holds Malformed)
  else (true, Holds (Document doc)).

(** [DataManager::setBackendUrl(const String &url)] *)
Definition setBackendUrl (opened written : bool) (url : string)
    (dm : DataManager.t) (file : File) : DataManager.t * File :=
  let dm :=
    {| DataManager.backendUrl := url;
       DataManager.dataBuffer := DataManager.dataBuffer dm |} in
  (dm, snd (saveConfig opened written dm file)).

(** [DataManager::begin()] *)
Definition begin (other : JsonValue -> string) (file : File)
    (dm : DataManager.t) : DataManager.t :=
  snd (loadConfig other file dm).

End Storage.

(** ** Single and double precision *)

(** C++ [float] on the target: IEEE-754 binary32, round to nearest, ties
    to even.  A value is a [spec_float]: a signed zero, an infinity, NaN,
    or [(-1)^s * m * 2^e]. *)
Module Single.

Import SpecFloat.

Definition prec : Z := 24.
Definition emax : Z := 128.

(** The constant [0.0]. *)
Definition zero : spec_float := S754_zero false.

Definition add : spec_float -> spec_float -> spec_float := SFadd prec emax.
Definition sub : spec_float -> spec_float -> spec_float := SFsub prec emax.
Definition mul : spec_float -> spec_float -> spec_float := SFmul prec emax.
Definition div : spec_float -> spec_float -> spec_float := SFdiv prec emax.
Definition sqrt : spec_float -> spec_float := SFsqrt prec emax.
Definition fabs : spec_float -> spec_float := SFabs.
Definition opp : spec_float -> spec_float := SFopp.
Definition ltb : spec_float -> spec_float -> bool := SFltb.

(** Not a number. *)
Definition is_nan (x : spec_float) : bool :=
  match x with
  | S754_nan => true
  | _ => false
  end.

(** The sign bit: set for negative values and for [-0.0]. *)
Definition signbit (x : spec_float) : bool :=
  match x with
  | S754_zero s | S754_infinity s | S754_finite s _ _ => s
  | S754_nan => false
  end.

(** A finite value above 0. *)
Definition is_positive (x : spec_float) : bool :=
  match x with
  | S754_finite false _ _ => true
  | _ => false
  end.

(** A number that is neither negative nor [-0.0]. *)
Definition nonneg (x : spec_float) : Prop :=
  is_nan x = false /\ signbit x = false.

(** Conversion of an integer to [float]. *)
Definition of_Z (n : Z) : spec_float := binary_normalize prec emax n 0 false.

(** Conversion of a [double] to [float]: rounding to 24 bits. *)
Definition of_double (x : spec_float) : spec_float :=
  match x with
  | S754_finite s m e => binary_round prec emax s m e
  | _ => x
  end.

End Single.

(** C++ [double]: IEEE-754 binary64, round to nearest, ties to even.  The
    source computes in [double] wherever a [float] meets one of the
    constants of Config.h or a literal such as [0.05]. *)
Module Double.

Import SpecFloat.

Definition prec : Z := 53.
Definition emax : Z := 1024.

Definition sub : spec_float -> spec_float -> spec_float := SFsub prec emax.
Definition mul : spec_float -> spec_float -> spec_float := SFmul prec emax.
Definition div : spec_float -> spec_float -> spec_float := SFdiv prec emax.
Definition sqrt : spec_float -> spec_float := SFsqrt prec emax.
Definition ltb : spec_float -> spec_float -> bool := SFltb.

(** Conversion of an integer to [double]; a literal such as [33.0]. *)
Definition of_Z (n : Z) : spec_float := binary_normalize prec emax n 0 false.

(** Conversion of a [float] to [double]: the value is kept, the mantissa
    is realigned to the exponent a [double] of that size has. *)
Definition of_single (x : spec_float) : spec_float :=
  match x with
  | S754_finite s m e => binary_round prec emax s m e
  | _ => x
  end.

(** A decimal literal [n / d], such as [0.05] = 5 / 100: the [double]
    nearest to the quotient. *)
Definition literal (n d : Z) : spec_float := div (of_Z n) (of_Z d).

End Double.

(** The real number a finite floating-point value stands for. *)
Definition toR (x : SpecFloat.spec_float) : R :=
  match x with
  | SpecFloat.S754_finite s m e =>
      IZR (SpecFloat.cond_Zopp s (Zpos m) * 2 ^ Z.max 0 e)
      / IZR (2 ^ Z.max 0 (- e))
  | _ => 0
  end.

(** ** Config.h, with the types the compiler gives the constants *)

Module ConfigF.

Import SpecFloat.

Definition MAINS_VOLTAGE : spec_float := Double.of_Z 230.
Definition CT_BURDEN_RESISTOR : spec_float := Double.of_Z 33.
Definition CT_TURNS_RATIO : spec_float := Double.of_Z 2000.
Definition VREF : spec_float := Double.literal 33 10.
Definition ANOMALY_THRESHOLD : spec_float := Double.literal 2 10.

(** [struct PowerData] *)
Record PowerData : Type := mkPowerData {
  timestamp : Z;
  current : spec_float;
  voltage : spec_float;
  power : spec_float;
  energy : spec_float;
  anomaly : bool
}.

End ConfigF.

(** ** PowerMonitor in single precision *)

Module PowerMonitorF.

Import SpecFloat.

(** The private fields of [class PowerMonitor]. *)
Record t : Type := mk {
  currentRMS : spec_float;
  mainVoltage : spec_float;
  powerWatts : spec_float;
  energyKwh : spec_float;
  lastEnergyCalcTime : Z;
  calibrationFactor : spec_float
}.

(** [PowerMonitor::PowerMonitor()] *)
Definition init : t :=
  {| currentRMS := Single.zero;
     mainVoltage := Single.of_double ConfigF.MAINS_VOLTAGE;
     powerWatts := Single.zero;
     energyKwh := Single.zero;
     lastEnergyCalcTime := 0;
     calibrationFactor := Single.of_double (Double.of_Z 1) |}.

(** The body of the sampling loop of [readCurrentSensor] for one ADC
    value.  [adcValue / float(ADC_COUNTS)] is a [float] division; the
    product with [VREF] and the difference with [VREF / 2.0] are in
    [double], each stored in a [float]; the square is a [float] product. *)
Definition sampleSquared (adcValue : Z) : spec_float :=
  let voltage :=
    Single.of_double
      (Double.mul
         (Double.of_single
            (Single.div (Single.of_Z adcValue) (Single.of_Z ADC_COUNTS)))
         ConfigF.VREF) in
  let voltageOffset :=
    Single.of_double
      (Double.sub (Double.of_single voltage)
                  (Double.div ConfigF.VREF (Double.of_Z 2))) in
  Single.mul voltageOffset voltageOffset.

(** [PowerMonitor::readCurrentSensor()]; [analogRead i] is the value the
    i-th call of [analogRead] of this cycle returns.  The sum is kept in a
    [float] and divided by the sample count converted to [float]. *)
Definition readCurrentSensor (analogRead : nat -> Z) : spec_float :=
  let sampleCount := SAMPLES_PER_CYCLE in
  let sumSquared :=
    fold_left (fun acc i => Single.add acc (sampleSquared (analogRead i)))
              (seq 0 sampleCount) Single.zero in
  Single.div sumSquared (Single.of_Z (Z.of_nat sampleCount)).

(** [PowerMonitor::calculateRMSCurrent(float meanSquared)].  The square
    root is stored in a [float] (it is taken in single precision here;
    taken in double precision and then stored, it is the same value on
    the inputs of the examples, see [sqrt_overloads_agree]); the
    division by [CT_BURDEN_RESISTOR] and the multiplication by
    [CT_TURNS_RATIO] are in [double] and their result is stored in a
    [float]; the calibration is a [float] product; the comparison with
    the literal [0.05] is in [double]. *)
Definition calculateRMSCurrent (meanSquared : spec_float) (pm : t)
  : spec_float :=
  let rmsVoltage := Single.sqrt meanSquared in
  let rmsCurrent :=
    Single.of_double
      (Double.mul
         (Double.div (Double.of_single rmsVoltage) ConfigF.CT_BURDEN_RESISTOR)
         ConfigF.CT_TURNS_RATIO) in
  let rmsCurrent := Single.mul rmsCurrent (calibrationFactor pm) in
  if Double.ltb (Double.of_single rmsCurrent) (Double.literal 5 100)
  then Single.zero
  else rmsCurrent.

(** [PowerMonitor::calculatePower()] *)
Definition calculatePower (pm : t) : t :=
  {| currentRMS := currentRMS pm;
     mainVoltage := mainVoltage pm;
     powerWatts := Single.mul (currentRMS pm) (mainVoltage pm);
     energyKwh := energyKwh pm;
     lastEnergyCalcTime := lastEnergyCalcTime pm;
     calibrationFactor := calibrationFactor pm |}.

(** [PowerMonitor::updateEnergy()], with the reading of [millis()] as
    [currentTime].  [timeDelta / 3600000.0] and [... / 1000.0] are
    [double] divisions stored in a [float]; the product of the power and
    the hours, and the addition to the total, are [float] operations. *)
Definition updateEnergy (currentTime : Z) (pm : t) : t :=
  let timeDelta := ulong_sub currentTime (lastEnergyCalcTime pm) in
  if (0 <? timeDelta)%Z then
    let hoursElapsed :=
      Single.of_double
        (Double.div (Double.of_Z timeDelta) (Double.of_Z 3600000)) in
    let energyIncrement :=
      Single.of_double
        (Double.div
           (Double.of_single (Single.mul (powerWatts pm) hoursElapsed))
           (Double.of_Z 1000)) in
    {| currentRMS := currentRMS pm;
       mainVoltage := mainVoltage pm;
       powerWatts := powerWatts pm;
       energyKwh := Single.add (energyKwh pm) energyIncrement;
       lastEnergyCalcTime := currentTime;
       calibrationFactor := calibrationFactor pm |}
  else pm.

(** [PowerMonitor::update()] *)
Definition update (analogRead : nat -> Z) (currentTime : Z) (pm : t) : t :=
  let rawCurrent := readCurrentSensor analogRead in
  let pm1 :=
    {| currentRMS := calculateRMSCurrent rawCurrent pm;
       mainVoltage := mainVoltage pm;
       powerWatts := powerWatts pm;
       energyKwh := energyKwh pm;
       lastEnergyCalcTime := lastEnergyCalcTime pm;
       calibrationFactor := calibrationFactor pm |} in
  updateEnergy currentTime (calculatePower pm1).

End PowerMonitorF.

(** ** AiProcessor in single precision *)

Module AiProcessorF.

Import SpecFloat.

(** The private fields of [class AiProcessor]. *)
Record t : Type := mk {
  dataHistory : list ConfigF.PowerData;
  powerPrediction : spec_float
}.

(** [dataHistory[i].power]; the callers check the size first. *)
Definition powerAt (ai : t) (i : nat) : spec_float :=
  nth i (map ConfigF.power (dataHistory ai)) Single.zero.

(** [AiProcessor::calculateMovingAverage(float value)]: the sum is kept in
    a [float], the size is converted to [float] for the division. *)
Definition calculateMovingAverage (value : spec_float) (ai : t)
  : spec_float :=
  match dataHistory ai with
  | [] => value
  | _ :: _ =>
      let sum :=
        fold_left (fun s d => Single.add s (ConfigF.power d))
                  (dataHistory ai) Single.zero in
      Single.div sum (Single.of_Z (Z.of_nat (length (dataHistory ai))))
  end.

(** [AiProcessor::calculateStandardDeviation()] *)
Definition calculateStandardDeviation (ai : t) : spec_float :=
  if (length (dataHistory ai) <? 2)%nat then Single.zero
  else
    let mean :=
      fold_left (fun m d => Single.add m (ConfigF.power d))
                (dataHistory ai) Single.zero in
    let mean :=
      Single.div mean (Single.of_Z (Z.of_nat (length (dataHistory ai)))) in
    let sumSqDiff :=
      fold_left
        (fun s d =>
           let diff := Single.sub (ConfigF.power d) mean in
           Single.add s (Single.mul diff diff))
        (dataHistory ai) Single.zero in
    Single.sqrt
      (Single.div sumSqDiff
         (Single.of_Z (Z.of_nat (length (dataHistory ai) - 1)))).

(** [AiProcessor::detectAnomaly(const PowerData &data)]: the deviation is
    a [float]; [stdDev * ANOMALY_THRESHOLD] and the comparison are in
    [double]. *)
Definition detectAnomaly (data : ConfigF.PowerData) (ai : t) : bool :=
  if (length (dataHistory ai) <? 3)%nat then false
  else
    let avg := calculateMovingAverage (ConfigF.power data) ai in
    let stdDev := calculateStandardDeviation ai in
    let deviation := Single.fabs (Single.sub (ConfigF.power data) avg) in
    Double.ltb
      (Double.mul (Double.of_single stdDev) ConfigF.ANOMALY_THRESHOLD)
      (Double.of_single deviation).

(** What [analyzeTrend] prints: the classification and, for a rising or
    falling trend, the percentage printed with it. *)
Inductive TrendReport : Type :=
| NotEnoughData
| Stable
| Increasing (percent : spec_float)
| Decreasing (percent : spec_float).

(** [AiProcessor::analyzeTrend()]: the two sums, their division by
    [TREND_WINDOW_SIZE / 2], the change and its division by the first
    average are [float] operations; the multiplication by [100.0] is in
    [double] and stored in a [float]; the comparison with [5.0] is in
    [double]. *)
Definition analyzeTrend (ai : t) : TrendReport :=
  if (length (dataHistory ai) <? TREND_WINDOW_SIZE)%nat then NotEnoughData
  else
    let half := (TREND_WINDOW_SIZE / 2)%nat in
    let firstAvg :=
      fold_left (fun a i => Single.add a (powerAt ai i)) (seq 0 half)
                Single.zero in
    let firstAvg := Single.div firstAvg (Single.of_Z (Z.of_nat half)) in
    let lastAvg :=
      fold_left (fun a i => Single.add a (powerAt ai i))
                (seq half (TREND_WINDOW_SIZE - half)) Single.zero in
    let lastAvg := Single.div lastAvg (Single.of_Z (Z.of_nat half)) in
    let change := Single.sub lastAvg firstAvg in
    let percentChange :=
      Single.of_double
        (Double.mul (Double.of_single (Single.div change firstAvg))
                    (Double.of_Z 100)) in
    if Double.ltb (Double.of_single (Single.fabs percentChange))
                  (Double.of_Z 5)
    then Stable
    else if Single.ltb Single.zero percentChange
         then Increasing percentChange
         else Decreasing (Single.opp percentChange).

End AiProcessorF.

(** ** Rounded statistics, as the amended claims word them *)

Module StatsF.

Import SpecFloat.

(** The sum of a list, added up in single precision from left to right. *)
Definition total (xs : list spec_float) : spec_float :=
  fold_left Single.add xs Single.zero.

(** The rounded sample mean: the rounded sum over the size. *)
Definition sample_mean (xs : list spec_float) : spec_float :=
  Single.div (total xs) (Single.of_Z (Z.of_nat (length xs))).

(** The rounded sample standard deviation, with the [n - 1] divisor. *)
Definition sample_stddev (xs : list spec_float) : spec_float :=
  let m := sample_mean xs in
  let squares :=
    map (fun x => Single.mul (Single.sub x m) (Single.sub x m)) xs in
  Single.sqrt
    (Single.div (total squares) (Single.of_Z (Z.of_nat (length xs - 1)))).

(** The rounded RMS current before the noise floor:
    [(rmsVoltage / 33) * 2000] in double precision, stored in single
    precision, times the calibration factor. *)
Definition rms_current (meanSquared calibration : spec_float) : spec_float :=
  Single.mul
    (Single.of_double
       (Double.mul
          (Double.div (Double.of_single (Single.sqrt meanSquared))
                      (Double.of_Z 33))
          (Double.of_Z 2000)))
    calibration.

(** A single-precision value compared with the noise floor [0.05]. *)
Definition below_floor (x : spec_float) : bool :=
  Double.ltb (Double.of_single x) (Double.literal 5 100).

(** The rounded percent change from the first-half mean to the
    second-half mean. *)
Definition percentChange (firstAvg lastAvg : spec_float) : spec_float :=
  Single.of_double
    (Double.mul
       (Double.of_single (Single.div (Single.sub lastAvg firstAvg) firstAvg))
       (Double.of_Z 100)).

(** Below 5% in magnitude the trend is stable; otherwise a positive change
    is increasing, and any other decreasing. *)
Definition classify (pct : spec_float) : AiProcessorF.TrendReport :=
  if Double.ltb (Double.of_single (Single.fabs pct)) (Double.of_Z 5)
  then AiProcessorF.Stable
  else if Single.ltb Single.zero pct then AiProcessorF.Increasing pct
       else AiProcessorF.Decreasing (Single.opp pct).

End StatsF.

(** ** Concrete inputs used by the examples *)

Module Samples.

(** A monitor that last integrated at clock reading 10 and holds a load
    of 1000 W. *)
Definition loaded : PowerMonitor.t :=
  {| PowerMonitor.currentRMS := 0;
     PowerMonitor.mainVoltage := 230;
     PowerMonitor.powerWatts := 1000;
     PowerMonitor.energyKwh := 0;
     PowerMonitor.lastEnergyCalcTime := 10;
     PowerMonitor.calibrationFactor := 1 |}.

(** A reading that carries only a power value. *)
Definition watts (p : R) : PowerData :=
  {| timestamp := 0; current := 0; voltage := 230; power := p;
     energy := 0; anomaly := false |}.

(** A transport that fails twice (a server error, then a connection
    error) and answers 200 from then on. *)
Definition flaky (k : nat) : Z :=
  match k with
  | O => 500
  | S O => -1
  | _ => 200
  end.

(** A transport that fails the first three POSTs and then answers 200. *)
Definition down3 (k : nat) : Z :=
  if (k <? 3)%nat then 503%Z else 200%Z.

(** A transport that never answers. *)
Definition dead (k : nat) : Z := (-1)%Z.

(** A manager with the given readings in its buffer. *)
Definition holding (items : list PowerData) : DataManager.t :=
  {| DataManager.backendUrl := DataManager.DEFAULT_BACKEND_URL;
     DataManager.dataBuffer := items |}.

(** An analytics state whose history holds readings of the given powers. *)
Definition window (ps : list R) : AiProcessor.t :=
  {| AiProcessor.dataHistory := map watts ps;
     AiProcessor.powerPrediction := 0 |}.

(** Five readings of 100 W followed by five of 200 W. *)
Definition rising : list R :=
  [100; 100; 100; 100; 100; 200; 200; 200; 200; 200].

(** A converter that reads the midpoint at every sample. *)
Definition midscale (i : nat) : Z := 2048.

(** A transport that answers 200 to every request. *)
Definition healthy (k : nat) : Z := 200.

(** A wall clock that is never set. *)
Definition unsynced (k : nat) : Z := 0.

(** What a call of [NetworkManager::update] sees at clock reading [now],
    with the connection up or down and nothing else succeeding. *)
Definition seen (up : bool) (now : Z) : NetworkManager.Inputs :=
  {| NetworkManager.s_connected := up;
     NetworkManager.currentMillis := now;
     NetworkManager.joined := false;
     NetworkManager.timeNow := unsynced |}.

End Samples.

(** ** Concrete single-precision inputs used by the examples *)

Module SamplesF.

Import SpecFloat.

(** A reading of [p] watts. *)
Definition watts (p : spec_float) : ConfigF.PowerData :=
  {| ConfigF.timestamp := 0;
     ConfigF.current := Single.zero;
     ConfigF.voltage := Single.of_Z 230;
     ConfigF.power := p;
     ConfigF.energy := Single.zero;
     ConfigF.anomaly := false |}.

(** A history holding the given powers, oldest first. *)
Definition window (ps : list spec_float) : AiProcessorF.t :=
  {| AiProcessorF.dataHistory := map watts ps;
     AiProcessorF.powerPrediction := Single.zero |}.

(** 44.92168426513671875 W *)
Definition steady : spec_float := S754_finite false 11775950 (-18).

(** 6.80624964e-07 V^2 (exactly 11973681 / 2^44) *)
Definition nearFloor : spec_float := S754_finite false 11973681 (-44).

(** The argument [0.01], as a [float]. *)
Definition hundredth : spec_float := Single.of_double (Double.literal 1 100).



(** Five readings of 100 W followed by five of 200 W. *)
Definition rising : list spec_float :=
  map Single.of_Z [100; 100; 100; 100; 100; 200; 200; 200; 200; 200]%Z.

(** An input at the bottom of the ADC range: every sample is 0. *)
Definition grounded (i : nat) : Z := 0.

(** A monitor that holds 4096 kWh at 100 W, its clock 5 ms before the
    roll-over. *)
Definition loaded : PowerMonitorF.t :=
  {| PowerMonitorF.currentRMS := Single.zero;
     PowerMonitorF.mainVoltage := Single.of_Z 230;
     PowerMonitorF.powerWatts := Single.of_Z 100;
     PowerMonitorF.energyKwh := Single.of_Z 4096;
     PowerMonitorF.lastEnergyCalcTime := 4294967291;
     PowerMonitorF.calibrationFactor := Single.of_Z 1 |}.

End SamplesF.

(** * Properties *)

(** ** PowerMonitor *)

Section PowerMonitorFacts.

Import PowerMonitor.

Lemma ulong_sub_range (a b : Z) :
  (0 <= ulong_sub a b < ULONG_MODULUS)%Z.
Proof.
  unfold ulong_sub. apply Z.mod_pos_bound. reflexivity.
Qed.



(** The energy added by one integration step is not negative when the
    stored power is not. *)
Lemma energyIncrement_nonneg (p : R) (timeDelta : Z) :
  0 <= p -> (0 < timeDelta)%Z ->
  0 <= p * (IZR timeDelta / 3600000) / 1000.
Proof.
  intros Hp Hd. apply IZR_lt in Hd.
  apply Rmult_le_pos; [|lra].
  apply Rmult_le_pos; [lra|].
  apply Rmult_le_pos; lra.
Qed.

(** One call of [updateEnergy] cannot lower the energy while the stored
    power is not negative. *)
Lemma updateEnergy_energy_step (currentTime : Z) (pm : t) :
  0 <= powerWatts pm ->
  energyKwh pm <= energyKwh (updateEnergy currentTime pm).
Proof.
  intros Hp. unfold updateEnergy.
  destruct (Z.ltb_spec 0 (ulong_sub currentTime (lastEnergyCalcTime pm)))
    as [Hd|Hd]; simpl.
  - pose proof (energyIncrement_nonneg _ _ Hp Hd). lra.
  - lra.
Qed.

(** C1. After every call of [updateEnergy] made while the stored power is
    not negative, [energyKwh] is at least what it was before the call.
    The elapsed delta is an unsigned difference, so it is never negative
    and needs no assumption. *)
Theorem updateEnergy_energy_monotone (currentTime : Z) (pm : t) :
  0 <= powerWatts pm ->
  energyKwh pm <= energyKwh (updateEnergy currentTime pm).
Proof. apply updateEnergy_energy_step. Qed.

Lemma updateEnergy_energy_monotone_witness :
  energyKwh Samples.loaded <= energyKwh (updateEnergy 3600010 Samples.loaded).
Proof.
  apply (updateEnergy_energy_monotone 3600010 Samples.loaded).
  simpl. lra.
Defined.

(** [calculateRMSCurrent] never returns a negative current while the
    calibration factor is not negative. *)
Lemma calculateRMSCurrent_nonneg (ms : R) (pm : t) :
  0 <= calibrationFactor pm -> 0 <= calculateRMSCurrent ms pm.
Proof.
  intros Hc. unfold calculateRMSCurrent.
  destruct (Rlt_dec _ _) as [_|_]; [lra|].
  apply Rmult_le_pos; [|exact Hc].
  unfold CT_BURDEN_RESISTOR, CT_TURNS_RATIO.
  pose proof (sqrt_pos ms). lra.
Qed.

(** A whole [update] cycle keeps the energy from decreasing, whatever
    the samples and the clock, while voltage and calibration are not
    negative. *)
Lemma update_energy_monotone (analogRead : nat -> Z) (currentTime : Z)
    (pm : t) :
  0 <= mainVoltage pm -> 0 <= calibrationFactor pm ->
  energyKwh pm <= energyKwh (update analogRead currentTime pm).
Proof.
  intros Hv Hc. unfold update.
  match goal with
  | |- _ <= energyKwh (updateEnergy _ ?q) =>
      change (energyKwh pm) with (energyKwh q);
      apply updateEnergy_energy_step
  end.
  simpl. apply Rmult_le_pos; [|exact Hv].
  apply calculateRMSCurrent_nonneg. exact Hc.
Qed.




(** C10. [setVoltage v] with [v <= 0] leaves the whole state unchanged;
    with [v > 0] it stores exactly [v] as the mains voltage and changes
    no other field. *)
Theorem setVoltage_frame (v : R) (pm : t) :
  (v <= 0 -> setVoltage v pm = pm) /\
  (0 < v ->
   mainVoltage (setVoltage v pm) = v /\
   currentRMS (setVoltage v pm) = currentRMS pm /\
   powerWatts (setVoltage v pm) = powerWatts pm /\
   energyKwh (setVoltage v pm) = energyKwh pm /\
   lastEnergyCalcTime (setVoltage v pm) = lastEnergyCalcTime pm /\
   calibrationFactor (setVoltage v pm) = calibrationFactor pm).
Proof.
  unfold setVoltage. split; intros Hv.
  - destruct (Rlt_dec 0 v); [lra | reflexivity].
  - destruct (Rlt_dec 0 v); [simpl; repeat split | lra].
Qed.

Lemma setVoltage_frame_witness :
  setVoltage (-5) init = init /\
  mainVoltage (setVoltage 120 init) = 120 /\
  energyKwh (setVoltage 120 init) = energyKwh init.
Proof.
  split; [|split].
  - apply (setVoltage_frame (-5) init). lra.
  - apply (setVoltage_frame 120 init). lra.
  - apply (setVoltage_frame 120 init). lra.
Defined.

(** The mains voltage stays positive under [setVoltage], whatever the
    argument. *)
Lemma setVoltage_keeps_positive (v : R) (pm : t) :
  0 < mainVoltage pm -> 0 < mainVoltage (setVoltage v pm).
Proof.
  intros Hpos. unfold setVoltage.
  destruct (Rlt_dec 0 v); simpl; assumption.
Qed.

End PowerMonitorFacts.

(** ** DataManager: one send *)

Section SendFacts.

  Import DataManager DeliverySpec.

Lemma okCode (code : Z) (success : bool) :
  (if (0 <? code)%Z
   then if (code =? HTTP_CODE_OK)%Z then true else success
   else success)
  = isOk code || success.
Proof.
  unfold isOk, HTTP_CODE_OK.
  destruct (Z.eqb_spec code 200) as [->|Hne]; simpl.
  - reflexivity.
  - destruct (0 <? code)%Z; reflexivity.
Qed.

Lemma retryLoop_done (fuel : nat) (url : string) (p : Json) (c : nat)
    (w : World) :
  retryLoop fuel url p true c w = ((true, c), w).
Proof. destruct fuel; reflexivity. Qed.

Lemma existsb_seq_shift (f : nat -> bool) (a k : nat) :
  existsb f (seq (S a) k) = existsb (fun i => f (S i)) (seq a k).
Proof.
  revert a. induction k as [|k IH]; intros a; cbn [seq existsb].
  - reflexivity.
  - rewrite IH. reflexivity.
Qed.

Lemma delivered_S (k : nat) (tr : nat -> Z) (start : nat) :
  delivered (S k) tr start = isOk (tr start) || delivered k tr (S start).
Proof.
  unfold delivered. cbn [seq existsb]. rewrite Nat.add_0_r. f_equal.
  rewrite existsb_seq_shift.
  induction (seq 0 k) as [|i l IH]; cbn [existsb].
  - reflexivity.
  - rewrite IH. now rewrite Nat.add_succ_r.
Qed.

Lemma retryLoop_S (fuel : nat) (url : string) (p : Json) (success : bool)
    (c : nat) :
  retryLoop (S fuel) url p success c
  = if negb success && (c <? MAX_RETRY_ATTEMPTS)%nat then
      httpResponseCode <- http_POST url p ;;
      let success :=
        if (0 <? httpResponseCode)%Z then
          if (httpResponseCode =? HTTP_CODE_OK)%Z then true else success
        else success in
      if negb success then
        (if (S c <? MAX_RETRY_ATTEMPTS)%nat
         then delay (500 * Z.of_nat (S c))
         else ret tt) ;;;
        retryLoop fuel url p success (S c)
      else
        retryLoop fuel url p success c
    else ret (success, c).
Proof. reflexivity. Qed.

Lemma retryLoop_O (url : string) (p : Json) (success : bool) (c : nat)
    (w : World) :
  retryLoop 0 url p success c w = ((success, c), w).
Proof. unfold retryLoop. destruct (_ && _); reflexivity. Qed.

(** The retry loop, run from [retryCount = c] with as much fuel as there
    are attempts left. *)
Lemma retryLoop_run (fuel : nat) (url : string) (p : Json) (c : nat)
    (w : World) :
  (c + fuel = MAX_RETRY_ATTEMPTS)%nat ->
  let n := attemptsNeeded fuel (transport w) (posts w) in
  let ok := delivered fuel (transport w) (posts w) in
  retryLoop fuel url p false c w
  = ((ok, if ok then (c + n - 1)%nat else (c + n)%nat),
     {| transport := transport w;
        posts := posts w + n;
        trace := trace w ++ attemptEventsFrom c url p n |}).
Proof.
  revert c w. induction fuel as [|fuel IH]; intros c w Hc n ok.
  - rewrite retryLoop_O. subst n ok. cbn.
    rewrite !Nat.add_0_r, app_nil_r. destruct w; reflexivity.
  - rewrite retryLoop_S. cbn [negb andb].
    replace (c <? MAX_RETRY_ATTEMPTS)%nat with true
      by (symmetry; apply Nat.ltb_lt; lia).
    unfold bind at 1. unfold http_POST at 1. cbv beta iota.
    rewrite okCode, orb_false_r.
    subst n ok. rewrite delivered_S. cbn [attemptsNeeded].
    destruct (isOk (transport w (posts w))) eqn:Hok; cbn [negb orb].
    + rewrite retryLoop_done.
      replace (c + 1 - 1)%nat with c by lia.
      rewrite Nat.add_1_r. reflexivity.
    + unfold bind at 1.
      destruct fuel as [|fuel].
      * replace (S c <? MAX_RETRY_ATTEMPTS)%nat with false
          by (symmetry; apply Nat.ltb_ge; lia).
        unfold ret at 1. cbv beta iota.
        rewrite retryLoop_O. cbn. rewrite !Nat.add_1_r. reflexivity.
      * replace (S c <? MAX_RETRY_ATTEMPTS)%nat with true
          by (symmetry; apply Nat.ltb_lt; lia).
        unfold delay at 1. cbv beta iota.
        rewrite IH by lia.
        cbn [transport posts trace].
        set (n := attemptsNeeded (S fuel) (transport w) (S (posts w))).
        assert (Hn : exists m, n = S m).
        { subst n. cbn [attemptsNeeded].
          destruct (isOk (transport w (S (posts w)))); eexists; reflexivity. }
        destruct Hn as [m Hm]. rewrite Hm.
        f_equal.
        { f_equal. destruct (delivered _ _ _); lia. }
        f_equal; [lia|].
        cbn [attemptEventsFrom seq flat_map].
        rewrite <- !app_assoc. reflexivity.
Qed.

Lemma attemptsNeeded_bounds (k : nat) (tr : nat -> Z) (start : nat) :
  (attemptsNeeded k tr start <= k)%nat /\
  (0 < k -> 1 <= attemptsNeeded k tr start)%nat.
Proof.
  revert start. induction k as [|k IH]; intros start; cbn [attemptsNeeded].
  - lia.
  - destruct (isOk (tr start)); [lia|].
    specialize (IH (S start)). lia.
Qed.

Lemma sendJsonToBackend_run (jsonPayload : Json) (dm : DataManager.t)
    (w : World) :
  sendJsonToBackend jsonPayload dm w
  = (delivered MAX_RETRY_ATTEMPTS (transport w) (posts w),
     {| transport := transport w;
        posts :=
          posts w + attemptsNeeded MAX_RETRY_ATTEMPTS (transport w) (posts w);
        trace :=
          trace w
          ++ attemptEvents (backendUrl dm) jsonPayload
               (attemptsNeeded MAX_RETRY_ATTEMPTS (transport w) (posts w))
     |}).
Proof.
  unfold sendJsonToBackend, bind.
  rewrite retryLoop_run by reflexivity.
  reflexivity.
Qed.

Lemma attemptsNeeded_prefix_fails (k : nat) (tr : nat -> Z) (start i : nat) :
  (i < attemptsNeeded k tr start - 1)%nat -> isOk (tr (start + i)%nat) = false.
Proof.
  revert start i. induction k as [|k IH]; intros start i; cbn [attemptsNeeded].
  - cbn. lia.
  - destruct (isOk (tr start)) eqn:Hok; [cbn; lia|].
    intros Hi. destruct i as [|i].
    + now rewrite Nat.add_0_r.
    + rewrite Nat.add_succ_r. apply (IH (S start) i). lia.
Qed.

Lemma delivered_last (k : nat) (tr : nat -> Z) (start : nat) :
  (0 < k)%nat ->
  delivered k tr start
  = isOk (tr (start + (attemptsNeeded k tr start - 1))%nat).
Proof.
  revert start. induction k as [|k IH]; intros start Hk; [lia|].
  rewrite delivered_S. cbn [attemptsNeeded].
  destruct (isOk (tr start)) eqn:Hok.
  - cbn. now rewrite Nat.add_0_r, Hok.
  - cbn [orb]. destruct k as [|k].
    + cbn. now rewrite Nat.add_0_r, Hok.
    + rewrite IH by lia.
      pose proof (attemptsNeeded_bounds (S k) tr (S start)) as [_ Hn].
      f_equal. f_equal. lia.
Qed.

Lemma undelivered_uses_all (k : nat) (tr : nat -> Z) (start : nat) :
  delivered k tr start = false -> attemptsNeeded k tr start = k.
Proof.
  revert start. induction k as [|k IH]; intros start; [reflexivity|].
  rewrite delivered_S. cbn [attemptsNeeded].
  destruct (isOk (tr start)); cbn [orb]; [discriminate|].
  intros Hd. now rewrite IH.
Qed.

Lemma isOk_true (code : Z) : isOk code = true <-> code = HTTP_CODE_OK.
Proof. unfold isOk, HTTP_CODE_OK. apply Z.eqb_eq. Qed.


(** C5. One send makes at least one and at most [MAX_RETRY_ATTEMPTS = 3]
    POSTs of the same payload; between the j-th attempt and the next it
    waits [500 * j] ms ([attemptEvents]); no attempt but the last one
    received the OK status, so it stops at the first success; it returns
    true exactly when an attempt received 200; and a send that returns
    false has used all three attempts, whatever the failures were (other
    status codes or connection errors). *)
Theorem sendJsonToBackend_retry_policy (jsonPayload : Json)
    (dm : DataManager.t) (w : World) :
  let tr := transport w in
  let k := posts w in
  let n := attemptsNeeded MAX_RETRY_ATTEMPTS tr k in
  let r := sendJsonToBackend jsonPayload dm w in
  MAX_RETRY_ATTEMPTS = 3%nat /\
  (1 <= n <= MAX_RETRY_ATTEMPTS)%nat /\
  transport (snd r) = tr /\
  posts (snd r) = (k + n)%nat /\
  trace (snd r) = trace w ++ attemptEvents (backendUrl dm) jsonPayload n /\
  (forall i, (i < n - 1)%nat -> tr (k + i)%nat <> HTTP_CODE_OK) /\
  (fst r = true <-> tr (k + (n - 1))%nat = HTTP_CODE_OK) /\
  (fst r = true <-> exists i, (i < n)%nat /\ tr (k + i)%nat = HTTP_CODE_OK) /\
  (fst r = false -> n = MAX_RETRY_ATTEMPTS).
Proof.
  intros tr k n r.
  assert (Hr : r = (delivered MAX_RETRY_ATTEMPTS tr k,
                    {| transport := tr; posts := k + n;
                       trace := trace w
                         ++ attemptEvents (backendUrl dm) jsonPayload n |}))
    by apply sendJsonToBackend_run.
  pose proof (attemptsNeeded_bounds MAX_RETRY_ATTEMPTS tr k) as [Hle Hge].
  assert (Hlast : delivered MAX_RETRY_ATTEMPTS tr k
                  = isOk (tr (k + (n - 1))%nat))
    by (apply delivered_last; unfold MAX_RETRY_ATTEMPTS; lia).
  assert (Hpre : forall i, (i < n - 1)%nat -> tr (k + i)%nat <> HTTP_CODE_OK).
  { intros i Hi Hc. apply isOk_true in Hc.
    rewrite (attemptsNeeded_prefix_fails _ _ _ _ Hi) in Hc. discriminate. }
  rewrite Hr. cbn [fst snd transport posts trace].
  repeat split; try assumption;
    try (apply Hge; unfold MAX_RETRY_ATTEMPTS; lia).
  - rewrite Hlast. apply isOk_true.
  - rewrite Hlast. apply isOk_true.
  - rewrite Hlast, isOk_true. intros Hok. exists (n - 1)%nat.
    split; [|exact Hok].
    assert (1 <= n)%nat by (apply Hge; unfold MAX_RETRY_ATTEMPTS; lia). lia.
  - intros [i [Hi Hok]]. rewrite Hlast, isOk_true.
    destruct (Nat.eq_dec i (n - 1)) as [->|Hne]; [exact Hok|].
    exfalso. apply (Hpre i); [lia | exact Hok].
  - apply undelivered_uses_all.
Qed.

(** The events of one, two and three attempts. *)
Lemma attemptEvents_shapes (url : string) (p : Json) :
  attemptEvents url p 1 = [POST url p] /\
  attemptEvents url p 2 = [POST url p; Delay 500; POST url p] /\
  attemptEvents url p 3
  = [POST url p; Delay 500; POST url p; Delay 1000; POST url p].
Proof. repeat split. Qed.

(** The loop of [sendJsonToBackend] does not run out of fuel: when it
    returns, its condition is false. *)
Lemma sendJsonToBackend_loop_exits (url : string) (p : Json) (w : World) :
  let r := fst (retryLoop MAX_RETRY_ATTEMPTS url p false 0 w) in
  negb (fst r) && (snd r <? MAX_RETRY_ATTEMPTS)%nat = false.
Proof.
  cbv zeta. rewrite retryLoop_run by reflexivity. cbn [fst snd].
  destruct (delivered _ _ _) eqn:Hd; [reflexivity|].
  rewrite (undelivered_uses_all _ _ _ Hd). reflexivity.
Qed.

End SendFacts.

(** ** DataManager: the delivery buffer *)

Section BufferFacts.

  Import DataManager DeliverySpec Main.

Lemma sendData_run (data : PowerData) (dm : DataManager.t) (w : World) :
  let n := attemptsNeeded MAX_RETRY_ATTEMPTS (transport w) (posts w) in
  sendData data dm w
  = (delivered MAX_RETRY_ATTEMPTS (transport w) (posts w),
     {| transport := transport w;
        posts := posts w + n;
        trace := trace w
                 ++ attemptEvents (backendUrl dm) (convertDataToJson data) n
     |}).
Proof. apply sendJsonToBackend_run. Qed.

Lemma sendEach_run (dm : DataManager.t) (items failed : list PowerData)
    (w : World) :
  let plan := drain MAX_RETRY_ATTEMPTS (transport w) (posts w) items in
  sendEach dm items failed w
  = (failed ++ retained plan,
     {| transport := transport w;
        posts := posts w + drainPosts plan;
        trace := trace w ++ drainEvents (backendUrl dm) plan |}).
Proof.
  revert failed w. induction items as [|d rest IH]; intros failed w.
  - cbn. unfold ret, retained, drainPosts, drainEvents. cbn.
    rewrite !app_nil_r, Nat.add_0_r. destruct w; reflexivity.
  - cbn [sendEach drain]. unfold bind at 1. rewrite sendData_run.
    cbv beta iota. unfold bind at 1, delay at 1. cbv beta iota.
    rewrite IH. cbn [transport posts trace].
    unfold retained, drainPosts, drainEvents.
    cbn [filter map flat_map list_sum wasDelivered reading attempts].
    destruct (delivered MAX_RETRY_ATTEMPTS (transport w) (posts w));
      cbn [negb map reading];
      change (list_sum (?a :: ?l)) with (a + list_sum l)%nat;
      rewrite ?Nat.add_assoc, <- ?app_assoc; reflexivity.
Qed.

Lemma sendBufferedData_run (dm : DataManager.t) (w : World) :
  let plan :=
    drain MAX_RETRY_ATTEMPTS (transport w) (posts w) (dataBuffer dm) in
  sendBufferedData dm w
  = ((match dataBuffer dm with
      | [] => true
      | _ :: _ => (length (retained plan) <? length (dataBuffer dm))%nat
      end,
      {| backendUrl := backendUrl dm; dataBuffer := retained plan |}),
     {| transport := transport w;
        posts := posts w + drainPosts plan;
        trace := trace w ++ drainEvents (backendUrl dm) plan |}).
Proof.
  unfold sendBufferedData.
  destruct (dataBuffer dm) as [|d rest] eqn:Hbuf.
  - cbn. unfold ret, retained, drainPosts, drainEvents. cbn.
    rewrite app_nil_r, Nat.add_0_r.
    destruct w, dm; cbn in *; subst; reflexivity.
  - unfold bind. rewrite sendEach_run. reflexivity.
Qed.

Lemma drain_readings (k : nat) (tr : nat -> Z) (start : nat)
    (items : list PowerData) :
  map reading (drain k tr start items) = items.
Proof.
  revert start. induction items as [|d rest IH]; intros start; cbn.
  - reflexivity.
  - now rewrite IH.
Qed.

Lemma retained_length (plan : list Attempted) :
  (length (retained plan) <= length plan)%nat.
Proof.
  unfold retained. rewrite length_map. apply filter_length_le.
Qed.

Lemma drain_length (k : nat) (tr : nat -> Z) (start : nat)
    (items : list PowerData) :
  length (drain k tr start items) = length items.
Proof.
  rewrite <- (drain_readings k tr start items) at 2. now rewrite length_map.
Qed.

Lemma drain_attempts (k : nat) (tr : nat -> Z) (start : nat)
    (items : list PowerData) :
  (0 < k)%nat ->
  Forall (fun a => (1 <= attempts a <= k)%nat) (drain k tr start items).
Proof.
  intros Hk. revert start.
  induction items as [|d rest IH]; intros start; cbn [drain].
  - constructor.
  - constructor; [|apply IH]. cbn [attempts].
    pose proof (attemptsNeeded_bounds k tr start) as [Hle Hge]. lia.
Qed.

(** A reading in the middle of a drain starts its attempts at the response
    that follows those used up by the readings before it. *)
Lemma drain_split (k : nat) (tr : nat -> Z) (start : nat)
    (items : list PowerData) (before after : list Attempted) (a : Attempted) :
  drain k tr start items = before ++ a :: after ->
  attempts a = attemptsNeeded k tr (start + drainPosts before) /\
  wasDelivered a = delivered k tr (start + drainPosts before).
Proof.
  revert start items. induction before as [|b before IH]; intros start items.
  - destruct items as [|d rest]; cbn [drain app]; [discriminate|].
    intros [= <- _]. cbn. now rewrite Nat.add_0_r.
  - destruct items as [|d rest]; cbn [drain app]; [discriminate|].
    intros [= <- Hrest]. apply IH in Hrest.
    unfold drainPosts in *. cbn [map attempts].
    change (list_sum (?x :: ?l)) with (x + list_sum l)%nat.
    now rewrite Nat.add_assoc.
Qed.

(** C4. [sendBufferedData] sends each buffered reading on its own, oldest
    first: the plan of the drain lists the readings of the buffer in
    order, each with one to three attempts, the outcome recorded for a
    reading is the result of [sendData] on it once the readings before it
    have been sent, and the trace grows by the attempts of each reading in
    that order.  Afterwards the buffer holds exactly the readings whose
    send failed, in their original order. *)
Theorem sendBufferedData_retains_failed (dm : DataManager.t) (w : World) :
  let plan :=
    drain MAX_RETRY_ATTEMPTS (transport w) (posts w) (dataBuffer dm) in
  let r := sendBufferedData dm w in
  map reading plan = dataBuffer dm /\
  Forall (fun a => (1 <= attempts a <= MAX_RETRY_ATTEMPTS)%nat) plan /\
  (forall before a after w1,
      plan = before ++ a :: after ->
      transport w1 = transport w ->
      posts w1 = (posts w + drainPosts before)%nat ->
      fst (sendData (reading a) dm w1) = wasDelivered a) /\
  trace (snd r) = trace w ++ drainEvents (backendUrl dm) plan /\
  dataBuffer (snd (fst r))
  = map reading (filter (fun a => negb (wasDelivered a)) plan) /\
  backendUrl (snd (fst r)) = backendUrl dm.
Proof.
  intros plan r.
  assert (Hr : r = _) by apply sendBufferedData_run.
  rewrite Hr. cbn [fst snd trace dataBuffer backendUrl].
  repeat split.
  - apply drain_readings.
  - apply drain_attempts. unfold MAX_RETRY_ATTEMPTS. lia.
  - intros before a after w1 Hplan Htr Hposts.
    rewrite sendData_run. cbn [fst].
    apply drain_split in Hplan as [_ ->].
    now rewrite Htr, Hposts.
Qed.

Lemma bufferData_bounded (data : PowerData) (dm : DataManager.t) :
  (length (dataBuffer dm) <= DATA_BUFFER_SIZE)%nat ->
  (length (dataBuffer (bufferData data dm)) <= DATA_BUFFER_SIZE)%nat.
Proof.
  intros Hle. unfold bufferData.
  destruct (Nat.ltb_spec (length (dataBuffer dm)) DATA_BUFFER_SIZE)
    as [Hlt|Hge];
    cbn [dataBuffer]; rewrite length_app; cbn [length].
  - lia.
  - destruct (dataBuffer dm) as [|d rest]; cbn [tl length] in *.
    + unfold DATA_BUFFER_SIZE in *. lia.
    + lia.
Qed.

Lemma sendBufferedData_shrinks (dm : DataManager.t) (w : World) :
  (length (dataBuffer (snd (fst (sendBufferedData dm w))))
   <= length (dataBuffer dm))%nat.
Proof.
  rewrite sendBufferedData_run. cbn [fst snd dataBuffer].
  etransitivity; [apply retained_length|].
  now rewrite drain_length.
Qed.

Lemma step_bounded (op : BufferOp) (dm : DataManager.t) (w : World) :
  (length (dataBuffer dm) <= DATA_BUFFER_SIZE)%nat ->
  (length (dataBuffer (fst (step op dm w))) <= DATA_BUFFER_SIZE)%nat.
Proof.
  intros Hle. destruct op as [data|]; cbn [step].
  - unfold ret. cbn [fst]. now apply bufferData_bounded.
  - unfold bind, ret.
    pose proof (sendBufferedData_shrinks dm w) as Hs.
    destruct (sendBufferedData dm w) as [[flag dm'] w']. cbn [fst snd] in *.
    lia.
Qed.

Lemma run_bounded (ops : list BufferOp) (dm : DataManager.t) (w : World) :
  (length (dataBuffer dm) <= DATA_BUFFER_SIZE)%nat ->
  (length (dataBuffer (fst (run ops dm w))) <= DATA_BUFFER_SIZE)%nat.
Proof.
  revert dm w. induction ops as [|op rest IH]; intros dm w Hle; cbn [run].
  - exact Hle.
  - unfold bind. pose proof (step_bounded op dm w Hle) as Hs.
    destruct (step op dm w) as [dm' w']. cbn [fst] in Hs.
    now apply IH.
Qed.

(** C3. The capacity is 100; after any sequence of [bufferData] and
    [sendBufferedData] operations from an empty buffer the buffer holds at
    most that many readings; and [bufferData] on a buffer that holds
    exactly that many drops the oldest reading, appends the new one and
    leaves the size at the capacity. *)
Theorem dataBuffer_bounded (ops : list BufferOp) (dm0 dm : DataManager.t)
    (data : PowerData) (w : World) :
  DATA_BUFFER_SIZE = 100%nat /\
  (dataBuffer dm0 = [] ->
   (length (dataBuffer (fst (run ops dm0 w))) <= DATA_BUFFER_SIZE)%nat) /\
  (length (dataBuffer dm) = DATA_BUFFER_SIZE ->
   dataBuffer (bufferData data dm) = tl (dataBuffer dm) ++ [data] /\
   length (dataBuffer (bufferData data dm)) = DATA_BUFFER_SIZE).
Proof.
  split; [reflexivity|]. split.
  - intros Hempty. apply run_bounded. rewrite Hempty. cbn. lia.
  - intros Hfull. unfold bufferData.
    rewrite Hfull, Nat.ltb_irrefl. cbn [dataBuffer]. split; [reflexivity|].
    rewrite length_app. cbn [length].
    destruct (dataBuffer dm) as [|d rest]; cbn [tl length] in *.
    + unfold DATA_BUFFER_SIZE in Hfull. discriminate.
    + lia.
Qed.

End BufferFacts.

(** ** DataManager: worked inputs *)

Section DeliveryExamples.

Import DataManager DeliverySpec Main.

Lemma sendJsonToBackend_retry_policy_witness :
  fst (sendJsonToBackend [] DataManager.init (boot Samples.flaky)) = true /\
  posts (snd (sendJsonToBackend [] DataManager.init (boot Samples.flaky)))
  = 3%nat /\
  attemptsNeeded MAX_RETRY_ATTEMPTS Samples.dead 0 = MAX_RETRY_ATTEMPTS.
Proof.
  pose proof (sendJsonToBackend_retry_policy [] DataManager.init
                (boot Samples.flaky))
    as (_ & _ & _ & Hposts & _ & _ & Hlast & _ & _).
  pose proof (sendJsonToBackend_retry_policy [] DataManager.init
                (boot Samples.dead))
    as (_ & _ & _ & _ & _ & _ & _ & _ & Hall).
  split; [|split].
  - apply Hlast. reflexivity.
  - rewrite Hposts. reflexivity.
  - apply Hall. reflexivity.
Defined.

(** Two failures and then a success: the buffered reading is POSTed three
    times with the growing delays, is delivered by the third POST and
    leaves the buffer. *)
Example sendBufferedData_third_attempt_delivers (d : PowerData) :
  sendBufferedData (Samples.holding [d]) (boot Samples.flaky)
  = ((true, Samples.holding []),
     {| transport := Samples.flaky;
        posts := 3;
        trace :=
          let p := POST DEFAULT_BACKEND_URL (convertDataToJson d) in
          [p; Delay 500; p; Delay 1000; p; Delay 100] |}).
Proof.
  rewrite sendBufferedData_run. reflexivity.
Qed.

Lemma sendBufferedData_retains_failed_witness :
  dataBuffer
    (snd (fst (sendBufferedData
                 (Samples.holding [Samples.watts 100; Samples.watts 200])
                 (boot Samples.down3))))
  = [Samples.watts 100] /\
  fst (sendData (Samples.watts 200)
         (Samples.holding [Samples.watts 100; Samples.watts 200])
         {| transport := Samples.down3; posts := 3; trace := [] |})
  = true.
Proof.
  pose proof (sendBufferedData_retains_failed
                (Samples.holding [Samples.watts 100; Samples.watts 200])
                (boot Samples.down3))
    as (_ & _ & Hout & _ & Hbuf & _).
  split.
  - rewrite Hbuf. reflexivity.
  - apply (Hout [mkAttempted (Samples.watts 100) 3 false]
                (mkAttempted (Samples.watts 200) 1 true) []);
      reflexivity.
Defined.

Lemma dataBuffer_bounded_witness :
  (length
     (dataBuffer
        (fst (run [BufferData (Samples.watts 1); SendBufferedData;
                   BufferData (Samples.watts 2)]
                  DataManager.init (boot Samples.dead))))
   <= DATA_BUFFER_SIZE)%nat /\
  dataBuffer
    (bufferData (Samples.watts 2)
       (Samples.holding (repeat (Samples.watts 1) 100)))
  = tl (repeat (Samples.watts 1) 100) ++ [Samples.watts 2].
Proof.
  split.
  - apply (dataBuffer_bounded
             [BufferData (Samples.watts 1); SendBufferedData;
              BufferData (Samples.watts 2)]
             DataManager.init DataManager.init (Samples.watts 2)
             (boot Samples.dead)).
    reflexivity.
  - apply (dataBuffer_bounded [] DataManager.init
             (Samples.holding (repeat (Samples.watts 1) 100))
             (Samples.watts 2) (boot Samples.dead)).
    reflexivity.
Defined.

End DeliveryExamples.

(** ** AiProcessor *)

Section AiProcessorFacts.

Import AiProcessor Stats TrendSpec.













(** Whatever the history, a reading of non-negative power leaves a
    prediction that is not negative. *)
Lemma update_prediction_nonneg (data : PowerData) (ai : AiProcessor.t) :
  0 <= power data -> 0 <= getPredictedPower (update data ai).
Proof.
  intros Hp. unfold update, getPredictedPower.
  set (pushed := dataHistory ai ++ [data]).
  set (history := if (TREND_WINDOW_SIZE <? length pushed)%nat
                  then tl pushed else pushed).
  unfold updatePrediction. cbn [dataHistory powerPrediction].
  destruct (Nat.ltb_spec (length history) 2) as [Hshort|Hlong].
  - assert (Hh : history = [data]).
    { subst history pushed. revert Hshort.
      destruct (dataHistory ai) as [|x l]; [reflexivity|].
      cbn [app length].
      destruct (Nat.ltb_spec TREND_WINDOW_SIZE (S (length (l ++ [data]))))
        as [Hbig|Hsmall];
        cbn [tl length]; rewrite length_app in *; cbn [length] in *;
        unfold TREND_WINDOW_SIZE in *; lia. }
    rewrite Hh. cbn. exact Hp.
  - cbn [powerPrediction]. destruct (Rlt_dec _ 0); lra.
Qed.

End AiProcessorFacts.

(** ** AiProcessor: worked inputs *)

Section AnalyticsExamples.

Import AiProcessor Stats TrendSpec.


End AnalyticsExamples.

(** ** The main loop *)

Section LoopFacts.

Import PowerMonitor.

Lemma bind_run {A B : Type} (m : M A) (k : A -> M B) (w : World) :
  bind m k w = k (fst (m w)) (snd (m w)).
Proof. unfold bind. destruct (m w); reflexivity. Qed.

Lemma update_keeps_settings (analogRead : nat -> Z) (currentTime : Z)
    (pm : PowerMonitor.t) :
  mainVoltage (update analogRead currentTime pm) = mainVoltage pm /\
  calibrationFactor (update analogRead currentTime pm) = calibrationFactor pm.
Proof.
  unfold update, updateEnergy.
  destruct (0 <? _)%Z; split; reflexivity.
Qed.

(** Over any number of measurement cycles, whatever the samples and the
    clock readings, the energy only grows. *)
Lemma update_cycles_energy_monotone (cycles : list ((nat -> Z) * Z))
    (pm : PowerMonitor.t) :
  0 <= mainVoltage pm -> 0 <= calibrationFactor pm ->
  energyKwh pm
  <= energyKwh (fold_left (fun m c => update (fst c) (snd c) m) cycles pm).
Proof.
  revert pm. induction cycles as [|c cycles IH]; intros pm Hv Hc;
    cbn [fold_left].
  - lra.
  - pose proof (update_keeps_settings (fst c) (snd c) pm) as [Hv' Hc'].
    pose proof (update_energy_monotone (fst c) (snd c) pm Hv Hc).
    specialize (IH (update (fst c) (snd c) pm)).
    rewrite Hv', Hc' in IH. specialize (IH Hv Hc). lra.
Qed.

(** The delivery step of a cycle keeps the buffer within its capacity. *)
Lemma deliver_bounded (connected : bool) (data : PowerData)
    (dm : DataManager.t) (w : World) :
  (length (DataManager.dataBuffer dm) <= DATA_BUFFER_SIZE)%nat ->
  (length (DataManager.dataBuffer (fst (Main.deliver connected data dm w)))
   <= DATA_BUFFER_SIZE)%nat.
Proof.
  intros Hle. unfold Main.deliver.
  destruct connected; [|now apply bufferData_bounded].
  rewrite !bind_run.
  set (drained :=
         (if DataManager.hasBufferedData dm
          then bind (DataManager.sendBufferedData dm) (fun r => ret (snd r))
          else ret dm) w).
  assert (Hdrained :
    (length (DataManager.dataBuffer (fst drained)) <= DATA_BUFFER_SIZE)%nat).
  { subst drained. destruct (DataManager.hasBufferedData dm).
    - rewrite bind_run. unfold ret. cbn [fst].
      pose proof (sendBufferedData_shrinks dm w). lia.
    - exact Hle. }
  destruct (fst (DataManager.sendData data (fst drained) (snd drained)));
    unfold ret; cbn [negb fst].
  - exact Hdrained.
  - now apply bufferData_bounded.
Qed.

End LoopFacts.

(** ** Thresholds, in the arithmetic of the program *)

Section RoundedFacts.

Import SpecFloat.

(** The square roots of the examples do not depend on the overload of
    [sqrt] the compiler selects: the single-precision root and the
    double-precision root stored in a [float] are the same value.  The
    last input is the rounded variance of three readings of
    [SamplesF.steady]. *)
Lemma sqrt_overloads_agree :
  Forall
    (fun x =>
       Single.of_double (Double.sqrt (Double.of_single x)) = Single.sqrt x)
    [SamplesF.nearFloor; SamplesF.hundredth;
     PowerMonitorF.readCurrentSensor SamplesF.grounded;
     S754_finite false 12582912 (-59)].
Proof.
  repeat (constructor; [vm_compute; reflexivity|]). constructor.
Qed.

(** A running sum over a field of the entries is the running sum of the
    list of that field. *)
Lemma fold_left_add_map {A : Type} (f : A -> spec_float) (l : list A)
      (a : spec_float) :
  fold_left (fun s d => Single.add s (f d)) l a
  = fold_left Single.add (map f l) a.
Proof.
  revert a. induction l as [|x l IH]; intros a; cbn [fold_left map].
  - reflexivity.
  - apply IH.
Qed.

(** The moving average over a non-empty history is the rounded sample
    mean. *)
Lemma calculateMovingAverage_rounded_mean (value : spec_float)
      (ai : AiProcessorF.t) :
  AiProcessorF.dataHistory ai <> [] ->
  AiProcessorF.calculateMovingAverage value ai
  = StatsF.sample_mean (map ConfigF.power (AiProcessorF.dataHistory ai)).
Proof.
  intros Hne. unfold AiProcessorF.calculateMovingAverage, StatsF.sample_mean.
  destruct (AiProcessorF.dataHistory ai) as [|d ds] eqn:Hh; [contradiction|].
  unfold StatsF.total.
  rewrite (fold_left_add_map ConfigF.power), length_map. reflexivity.
Qed.

(** With two entries or more the computed deviation is the rounded sample
    standard deviation. *)
Lemma calculateStandardDeviation_rounded_stddev (ai : AiProcessorF.t) :
  (2 <= length (AiProcessorF.dataHistory ai))%nat ->
  AiProcessorF.calculateStandardDeviation ai
  = StatsF.sample_stddev (map ConfigF.power (AiProcessorF.dataHistory ai)).
Proof.
  intros Hlen. unfold AiProcessorF.calculateStandardDeviation.
  destruct (Nat.ltb_spec (length (AiProcessorF.dataHistory ai)) 2)
    as [Hlt|_]; [lia|].
  cbv zeta. rewrite (fold_left_add_map ConfigF.power).
  set (mean := Single.div
                 (fold_left Single.add
                    (map ConfigF.power (AiProcessorF.dataHistory ai))
                    Single.zero) _).
  rewrite (fold_left_add_map
             (fun d => Single.mul (Single.sub (ConfigF.power d) mean)
                                  (Single.sub (ConfigF.power d) mean))).
  assert (Hm : StatsF.sample_mean
                 (map ConfigF.power (AiProcessorF.dataHistory ai)) = mean).
  { unfold StatsF.sample_mean, StatsF.total. now rewrite length_map. }
  unfold StatsF.sample_stddev. cbv zeta.
  rewrite Hm, map_map, length_map. reflexivity.
Qed.

(** C6 as stated fails on the program.  Against three readings of
    44.92168426513671875 W a fourth reading of the same power is flagged:
    the rounded sum of the three divided by 3 is 44.92168045..., not the
    power itself.  The exact sample mean is the power and the exact
    deviation 0, which no threshold lies below. *)
Lemma detectAnomaly_flags_steady_reading :
  AiProcessorF.detectAnomaly
    (SamplesF.watts SamplesF.steady)
    (SamplesF.window [SamplesF.steady; SamplesF.steady; SamplesF.steady])
  = true /\
  StatsF.sample_mean [SamplesF.steady; SamplesF.steady; SamplesF.steady]
  = S754_finite false 11775949 (-18) /\
  ~ (Rabs (toR SamplesF.steady
           - Stats.sample_mean
               (map toR [SamplesF.steady; SamplesF.steady; SamplesF.steady]))
     > 0.2 * Stats.sample_stddev
               (map toR [SamplesF.steady; SamplesF.steady; SamplesF.steady])).
Proof.
  split; [vm_compute; reflexivity|]. split; [vm_compute; reflexivity|].
  cbn [map]. set (c := toR SamplesF.steady).
  assert (Hm : Stats.sample_mean [c; c; c] = c).
  { unfold Stats.sample_mean, Stats.total. cbn [fold_right length INR].
    field. }
  rewrite Hm.
  replace (c - c) with 0 by ring. rewrite Rabs_R0.
  pose proof (sqrt_pos
    (Stats.total (map (fun x => (x - c) * (x - c)) [c; c; c])
     / (INR (length [c; c; c]) - 1))) as Hs.
  unfold Stats.sample_stddev. rewrite Hm. lra.
Qed.

(** C6, amended.  With fewer than three history entries [detectAnomaly]
    answers false.  With three or more it answers true exactly when the
    rounded deviation of the reading's power from the rounded sample mean
    exceeds 0.2 times the rounded sample standard deviation (divisor
    [n - 1]), product and comparison in double precision. *)
Theorem detectAnomaly_threshold (data : ConfigF.PowerData)
        (ai : AiProcessorF.t) :
  let ps := map ConfigF.power (AiProcessorF.dataHistory ai) in
  let deviation :=
    Single.fabs (Single.sub (ConfigF.power data) (StatsF.sample_mean ps)) in
  let threshold :=
    Double.mul (Double.of_single (StatsF.sample_stddev ps))
               (Double.literal 2 10) in
  ((length (AiProcessorF.dataHistory ai) < 3)%nat ->
   AiProcessorF.detectAnomaly data ai = false) /\
  ((3 <= length (AiProcessorF.dataHistory ai))%nat ->
   AiProcessorF.detectAnomaly data ai
   = Double.ltb threshold (Double.of_single deviation)).
Proof.
  intros ps deviation threshold. unfold AiProcessorF.detectAnomaly.
  split; intros Hlen.
  - destruct (Nat.ltb_spec (length (AiProcessorF.dataHistory ai)) 3);
      [reflexivity | lia].
  - destruct (Nat.ltb_spec (length (AiProcessorF.dataHistory ai)) 3)
      as [Hlt|_]; [lia|].
    rewrite calculateMovingAverage_rounded_mean
      by (destruct (AiProcessorF.dataHistory ai);
          [cbn in Hlen; lia | discriminate]).
    rewrite calculateStandardDeviation_rounded_stddev by lia.
    reflexivity.
Qed.

Lemma detectAnomaly_threshold_witness :
  AiProcessorF.detectAnomaly
    (SamplesF.watts (Single.of_Z 150))
    (SamplesF.window [Single.of_Z 100; Single.of_Z 100]) = false /\
  AiProcessorF.detectAnomaly
    (SamplesF.watts (Single.of_Z 150))
    (SamplesF.window [Single.of_Z 100; Single.of_Z 100; Single.of_Z 100])
  = true.
Proof.
  split.
  - apply (detectAnomaly_threshold
             (SamplesF.watts (Single.of_Z 150))
             (SamplesF.window [Single.of_Z 100; Single.of_Z 100])).
    simpl. lia.
  - pose proof (detectAnomaly_threshold
             (SamplesF.watts (Single.of_Z 150))
             (SamplesF.window
                [Single.of_Z 100; Single.of_Z 100; Single.of_Z 100]))
      as [_ H].
    rewrite H by (simpl; lia). vm_compute. reflexivity.
Defined.

(** The value of a float with a negative exponent. *)
Lemma toR_fraction (m : positive) (e : positive) :
  toR (S754_finite false m (Zneg e)) = IZR (Zpos m) / IZR (2 ^ Zpos e).
Proof.
  unfold toR. cbn [cond_Zopp].
  change (Z.max 0 (Z.neg e)) with 0%Z.
  change (Z.max 0 (- Z.neg e)) with (Z.pos e).
  rewrite Z.pow_0_r, Z.mul_1_r. reflexivity.
Qed.









End RoundedFacts.

(** * Further properties of the code *)

Section SignFacts.

Import SpecFloat.

Variables prec emax : Z.

Lemma shr_1_nonneg (mrs : shr_record) :
  (0 <= shr_m mrs)%Z -> (0 <= shr_m (shr_1 mrs))%Z.
Proof.
  destruct mrs as [m r s]. cbn [shr_m].
  destruct m as [|p|p]; [| |lia]; intros _.
  - cbn. lia.
  - destruct p; cbn; lia.
Qed.

Lemma iter_shr_1_nonneg (p : positive) (mrs : shr_record) :
  (0 <= shr_m mrs)%Z -> (0 <= shr_m (iter_pos shr_1 p mrs))%Z.
Proof.
  revert mrs. induction p as [p IH|p IH|]; intros mrs Hm; cbn [iter_pos].
  - apply IH, IH, shr_1_nonneg, Hm.
  - apply IH, IH, Hm.
  - apply shr_1_nonneg, Hm.
Qed.

Lemma shr_fexp_nonneg (m e : Z) (l : location) :
  (0 <= m)%Z -> (0 <= shr_m (fst (shr_fexp prec emax m e l)))%Z.
Proof.
  intros Hm. unfold shr_fexp, shr.
  assert (H0 : (0 <= shr_m (shr_record_of_loc m l))%Z)
    by (destruct l as [|[| |]]; exact Hm).
  destruct (fexp prec emax (Zdigits2 m + e) - e)%Z; cbn [fst]; auto.
  now apply iter_shr_1_nonneg.
Qed.

Lemma round_nearest_even_nonneg (m : Z) (l : location) :
  (0 <= m)%Z -> (0 <= round_nearest_even m l)%Z.
Proof.
  intros Hm. unfold round_nearest_even.
  destruct l as [|[| |]]; try lia. destruct (Z.even m); lia.
Qed.

(** Rounding a mantissa that is not negative gives a number, with the
    sign it was given. *)
Lemma binary_round_aux_sign (sx : bool) (mx ex : Z) (lx : location) :
  (0 <= mx)%Z ->
  Single.is_nan (binary_round_aux prec emax sx mx ex lx) = false /\
  Single.signbit (binary_round_aux prec emax sx mx ex lx) = sx.
Proof.
  intros Hm. unfold binary_round_aux.
  pose proof (shr_fexp_nonneg mx ex lx Hm) as H1.
  destruct (shr_fexp prec emax mx ex lx) as [mrs' e'] eqn:E1.
  cbn [fst] in H1.
  pose proof (shr_fexp_nonneg
                (round_nearest_even (shr_m mrs') (loc_of_shr_record mrs'))
                e' loc_Exact
                (round_nearest_even_nonneg _ _ H1)) as H2.
  destruct (shr_fexp prec emax
              (round_nearest_even (shr_m mrs') (loc_of_shr_record mrs'))
              e' loc_Exact) as [mrs'' e''] eqn:E2.
  cbn [fst] in H2.
  destruct (shr_m mrs'') as [|p|p]; [| |lia].
  - split; reflexivity.
  - destruct (e'' <=? emax - prec)%Z; split; reflexivity.
Qed.

Lemma binary_round_sign (sx : bool) (mx : positive) (ex : Z) :
  Single.is_nan (binary_round prec emax sx mx ex) = false /\
  Single.signbit (binary_round prec emax sx mx ex) = sx.
Proof.
  unfold binary_round.
  destruct (shl_align mx ex (fexp prec emax (Z.pos (digits2_pos mx) + ex)))
    as [mz ez].
  apply binary_round_aux_sign. lia.
Qed.

Lemma binary_normalize_not_nan (m e : Z) (szero : bool) :
  Single.is_nan (binary_normalize prec emax m e szero) = false.
Proof.
  destruct m; cbn [binary_normalize]; [reflexivity| |];
    apply binary_round_sign.
Qed.

Lemma SFadd_nonneg (x y : spec_float) :
  Single.nonneg x -> Single.nonneg y ->
  Single.nonneg (SFadd prec emax x y).
Proof.
  unfold Single.nonneg.
  destruct x as [[|]|[|]| |[|] mx ex]; cbn; try (intros [? ?]; discriminate);
  destruct y as [[|]|[|]| |[|] my ey]; cbn; try (intros _ [? ?]; discriminate);
    intros _ _; try (split; reflexivity).
  set (a := fst (shl_align mx ex (Z.min ex ey))).
  set (b := fst (shl_align my ey (Z.min ex ey))).
  apply binary_round_sign.
Qed.

Lemma SFmul_self_nonneg (x : spec_float) :
  Single.is_nan x = false -> Single.nonneg (SFmul prec emax x x).
Proof.
  unfold Single.nonneg.
  destruct x as [s|s| |s m e]; try discriminate; intros _.
  - cbn. now destruct s.
  - cbn. now destruct s.
  - unfold SFmul. replace (xorb s s) with false by (now destruct s).
    apply binary_round_aux_sign. lia.
Qed.

Lemma SFmul_nonneg (x y : spec_float) :
  Single.nonneg x -> Single.is_positive y = true ->
  Single.nonneg (SFmul prec emax x y).
Proof.
  unfold Single.nonneg.
  destruct x as [[|]|[|]| |[|] mx ex]; cbn; try (intros [? ?]; discriminate);
  destruct y as [[|]|[|]| |[|] my ey]; cbn; try discriminate;
    intros _ _; try (split; reflexivity).
  apply binary_round_aux_sign. lia.
Qed.

Lemma SFmul_not_nan (x y : spec_float) :
  Single.is_nan x = false -> Single.is_positive y = true ->
  Single.is_nan (SFmul prec emax x y) = false.
Proof.
  destruct x as [sx|sx| |sx mx ex]; try discriminate;
  destruct y as [[|]|[|]| |[|] my ey]; try discriminate; intros _ _;
    try reflexivity.
  unfold SFmul. apply binary_round_aux_sign. lia.
Qed.

(** The quotient and location of a division of mantissas that are not
    negative. *)
Lemma SFdiv_core_nonneg (mx my : positive) (ex ey : Z) :
  (0 <= fst (fst (SFdiv_core_binary prec emax (Z.pos mx) ex (Z.pos my) ey)))%Z.
Proof.
  unfold SFdiv_core_binary.
  set (m' := match _ with Z0 => _ | Zpos _ => _ | Zneg _ => _ end).
  assert (Hm' : (0 <= m')%Z).
  { subst m'. destruct (_ - _ - _)%Z; try lia. apply Z.shiftl_nonneg. lia. }
  pose proof (Z_div_mod m' (Z.pos my) ltac:(lia)) as Hdm.
  destruct (Z.div_eucl m' (Z.pos my)) as [q r]. cbn [fst]. nia.
Qed.

Lemma SFdiv_nonneg (x y : spec_float) :
  Single.nonneg x -> Single.is_positive y = true ->
  Single.nonneg (SFdiv prec emax x y).
Proof.
  unfold Single.nonneg.
  destruct x as [[|]|[|]| |[|] mx ex]; cbn; try (intros [? ?]; discriminate);
  destruct y as [[|]|[|]| |[|] my ey]; cbn; try discriminate;
    intros _ _; try (split; reflexivity).
  pose proof (SFdiv_core_nonneg mx my ex ey) as Hq.
  destruct (SFdiv_core_binary prec emax (Z.pos mx) ex (Z.pos my) ey)
    as [[mz ez] lz].
  apply binary_round_aux_sign. exact Hq.
Qed.

Lemma SFdiv_not_nan (x y : spec_float) :
  Single.is_nan x = false -> Single.is_positive y = true ->
  Single.is_nan (SFdiv prec emax x y) = false.
Proof.
  destruct x as [sx|sx| |sx mx ex]; try discriminate;
  destruct y as [[|]|[|]| |[|] my ey]; try discriminate; intros _ _;
    try reflexivity.
  unfold SFdiv.
  pose proof (SFdiv_core_nonneg mx my ex ey) as Hq.
  destruct (SFdiv_core_binary prec emax (Z.pos mx) ex (Z.pos my) ey)
    as [[mz ez] lz].
  apply binary_round_aux_sign. exact Hq.
Qed.

Lemma SFsub_not_nan (x y : spec_float) :
  Single.is_nan x = false -> Single.is_positive y = true ->
  Single.is_nan (SFsub prec emax x y) = false.
Proof.
  destruct x as [sx|sx| |sx mx ex]; try discriminate;
  destruct y as [[|]|[|]| |[|] my ey]; try discriminate; intros _ _;
    try reflexivity.
  unfold SFsub. apply binary_normalize_not_nan.
Qed.

Lemma SFsqrt_nonneg (x : spec_float) :
  Single.nonneg x -> Single.nonneg (SFsqrt prec emax x).
Proof.
  unfold Single.nonneg.
  destruct x as [[|]|[|]| |[|] mx ex]; cbn; try (intros [? ?]; discriminate);
    intros _; try (split; reflexivity).
  unfold SFsqrt_core_binary.
  set (m' := match _ with Z0 => _ | Zpos _ => _ | Zneg _ => _ end).
  pose proof (Z.sqrtrem_spec m') as Hs.
  assert (Hm' : (0 <= m')%Z).
  { subst m'. destruct (_ - _)%Z; try lia. apply Z.shiftl_nonneg. lia. }
  specialize (Hs Hm').
  destruct (Z.sqrtrem m') as [q r].
  apply binary_round_aux_sign. lia.
Qed.

End SignFacts.

Section RoundedSensorFacts.

Import SpecFloat.

(** The conversions between [float] and [double] keep numbers numbers and
    keep the sign. *)
Lemma of_double_sign (x : spec_float) :
  Single.is_nan (Single.of_double x) = Single.is_nan x /\
  Single.signbit (Single.of_double x) = Single.signbit x.
Proof.
  destruct x as [s|s| |s m e]; try (split; reflexivity).
  cbn [Single.of_double Single.is_nan Single.signbit].
  apply binary_round_sign.
Qed.

Lemma of_single_sign (x : spec_float) :
  Single.is_nan (Double.of_single x) = Single.is_nan x /\
  Single.signbit (Double.of_single x) = Single.signbit x.
Proof.
  destruct x as [s|s| |s m e]; try (split; reflexivity).
  cbn [Double.of_single Single.is_nan Single.signbit].
  apply binary_round_sign.
Qed.

Lemma of_double_nonneg (x : spec_float) :
  Single.nonneg x -> Single.nonneg (Single.of_double x).
Proof.
  unfold Single.nonneg. destruct (of_double_sign x) as [Hn Hs].
  now rewrite Hn, Hs.
Qed.

Lemma of_single_nonneg (x : spec_float) :
  Single.nonneg x -> Single.nonneg (Double.of_single x).
Proof.
  unfold Single.nonneg. destruct (of_single_sign x) as [Hn Hs].
  now rewrite Hn, Hs.
Qed.

(** The square accumulated for one sample is a number and is not
    negative, whatever the ADC returned. *)
Lemma sampleSquared_nonneg (adcValue : Z) :
  Single.nonneg (PowerMonitorF.sampleSquared adcValue).
Proof.
  unfold PowerMonitorF.sampleSquared. cbv zeta.
  apply SFmul_self_nonneg.
  rewrite (proj1 (of_double_sign _)).
  apply SFsub_not_nan; [|reflexivity].
  rewrite (proj1 (of_single_sign _)), (proj1 (of_double_sign _)).
  apply SFmul_not_nan; [|reflexivity].
  rewrite (proj1 (of_single_sign _)).
  apply SFdiv_not_nan; [|reflexivity].
  apply binary_normalize_not_nan.
Qed.

Lemma readCurrentSensor_nonneg (analogRead : nat -> Z) :
  Single.nonneg (PowerMonitorF.readCurrentSensor analogRead).
Proof.
  unfold PowerMonitorF.readCurrentSensor. cbv zeta.
  apply SFdiv_nonneg; [|reflexivity].
  assert (Hfold : forall l acc,
    Single.nonneg acc ->
    Single.nonneg (fold_left
              (fun acc i =>
                 Single.add acc (PowerMonitorF.sampleSquared (analogRead i)))
              l acc)).
  { induction l as [|i l IH]; intros acc Hacc; cbn [fold_left].
    - exact Hacc.
    - apply IH. apply SFadd_nonneg; [exact Hacc|].
      apply sampleSquared_nonneg. }
  apply Hfold. split; reflexivity.
Qed.

(** X1. The mean square [readCurrentSensor] returns is a number and is not
    negative, whatever the ADC returns.  It is not bounded by the square
    of half the reference voltage: with every sample 0 the rounded
    accumulation gives 2.72250271..., above [1.65 * 1.65]. *)
Theorem readCurrentSensor_never_negative (analogRead : nat -> Z) :
  Single.is_nan (PowerMonitorF.readCurrentSensor analogRead) = false /\
  Single.signbit (PowerMonitorF.readCurrentSensor analogRead) = false /\
  PowerMonitorF.readCurrentSensor SamplesF.grounded
  = S754_finite false 11419004 (-22) /\
  (1.65 * 1.65 < toR (PowerMonitorF.readCurrentSensor SamplesF.grounded))%R.
Proof.
  destruct (readCurrentSensor_nonneg analogRead) as [Hn Hs].
  assert (Hv : PowerMonitorF.readCurrentSensor SamplesF.grounded
               = S754_finite false 11419004 (-22))
    by (vm_compute; reflexivity).
  split; [exact Hn|]. split; [exact Hs|]. split; [exact Hv|].
  rewrite Hv, toR_fraction. change (2 ^ 22)%Z with 4194304%Z. lra.
Qed.

(** With a calibration factor above 0 the current computed from a mean
    square that is not negative is a number and is not negative. *)
Lemma calculateRMSCurrent_nonneg_rounded (ms : spec_float)
      (pm : PowerMonitorF.t) :
  Single.nonneg ms ->
  Single.is_positive (PowerMonitorF.calibrationFactor pm) = true ->
  Single.nonneg (PowerMonitorF.calculateRMSCurrent ms pm).
Proof.
  intros Hms Hcal. unfold PowerMonitorF.calculateRMSCurrent. cbv zeta.
  destruct (Double.ltb _ _); [split; reflexivity|].
  apply SFmul_nonneg; [|exact Hcal].
  apply of_double_nonneg.
  apply SFmul_nonneg; [|reflexivity].
  apply SFdiv_nonneg; [|reflexivity].
  apply of_single_nonneg. apply SFsqrt_nonneg. exact Hms.
Qed.

(** X3. After [PowerMonitor::update], with a calibration factor above 0
    and whatever the ADC returns, the current is a number that is not
    negative, and is 0 or not below the noise floor; the power is the
    rounded product of the current and the mains voltage; voltage and
    calibration are unchanged. *)
Theorem update_reading_never_negative (analogRead : nat -> Z) (currentTime : Z)
        (pm : PowerMonitorF.t) :
  Single.is_positive (PowerMonitorF.calibrationFactor pm) = true ->
  let pm' := PowerMonitorF.update analogRead currentTime pm in
  Single.is_nan (PowerMonitorF.currentRMS pm') = false /\
  Single.signbit (PowerMonitorF.currentRMS pm') = false /\
  (PowerMonitorF.currentRMS pm' = Single.zero \/
   StatsF.below_floor (PowerMonitorF.currentRMS pm') = false) /\
  PowerMonitorF.powerWatts pm'
  = Single.mul (PowerMonitorF.currentRMS pm') (PowerMonitorF.mainVoltage pm) /\
  PowerMonitorF.mainVoltage pm' = PowerMonitorF.mainVoltage pm /\
  PowerMonitorF.calibrationFactor pm' = PowerMonitorF.calibrationFactor pm.
Proof.
  intros Hcal pm'. subst pm'.
  pose proof (readCurrentSensor_nonneg analogRead) as Hms.
  unfold PowerMonitorF.update. cbv zeta.
  revert Hms. generalize (PowerMonitorF.readCurrentSensor analogRead).
  intros ms Hms.
  destruct (calculateRMSCurrent_nonneg_rounded ms pm Hms Hcal) as [Hn Hs].
  set (raw := StatsF.rms_current ms (PowerMonitorF.calibrationFactor pm)).
  assert (Hrun : PowerMonitorF.calculateRMSCurrent ms pm
                 = if StatsF.below_floor raw then Single.zero else raw)
    by reflexivity.
  assert (Hgap : PowerMonitorF.calculateRMSCurrent ms pm = Single.zero \/
                 StatsF.below_floor (PowerMonitorF.calculateRMSCurrent ms pm)
                 = false).
  { rewrite Hrun. destruct (StatsF.below_floor raw) eqn:Hb.
    - left. reflexivity.
    - right. exact Hb. }
  clearbody raw. revert Hn Hs Hgap.
  generalize (PowerMonitorF.calculateRMSCurrent ms pm). intros cur Hn Hs Hgap.
  unfold PowerMonitorF.updateEnergy, PowerMonitorF.calculatePower.
  cbn [PowerMonitorF.currentRMS PowerMonitorF.mainVoltage
       PowerMonitorF.powerWatts PowerMonitorF.calibrationFactor
       PowerMonitorF.lastEnergyCalcTime PowerMonitorF.energyKwh].
  destruct (0 <? _)%Z;
    cbn [PowerMonitorF.currentRMS PowerMonitorF.mainVoltage
         PowerMonitorF.powerWatts PowerMonitorF.calibrationFactor];
    repeat split; assumption.
Qed.

Lemma update_reading_never_negative_witness :
  Single.signbit
    (PowerMonitorF.currentRMS
       (PowerMonitorF.update SamplesF.grounded 1000 PowerMonitorF.init))
  = false /\
  PowerMonitorF.currentRMS
    (PowerMonitorF.update SamplesF.grounded 1000 PowerMonitorF.init)
  = S754_finite false 13107206 (-17).
Proof.
  split.
  - destruct (update_reading_never_negative
                SamplesF.grounded 1000 PowerMonitorF.init)
      as (_ & Hsign & _); [reflexivity | exact Hsign].
  - vm_compute. reflexivity.
Defined.

End RoundedSensorFacts.

Section RoundedEnergyFacts.

Import SpecFloat.

(** X4. The integration step survives the roll-over of the millisecond
    clock: when [elapsed] ms (more than 0, less than 2^32) have passed
    since the stored time, possibly across the wrap of the clock, the step
    integrates the power over exactly [elapsed] ms (the increment is
    rounded to single precision and added to the rounded total) and
    stores the new reading. *)
Theorem updateEnergy_rollover (elapsed : Z) (pm : PowerMonitorF.t) :
  (0 <= PowerMonitorF.lastEnergyCalcTime pm < ULONG_MODULUS)%Z ->
  (0 < elapsed < ULONG_MODULUS)%Z ->
  let now :=
    ((PowerMonitorF.lastEnergyCalcTime pm + elapsed) mod ULONG_MODULUS)%Z in
  let hours :=
    Single.of_double
      (Double.div (Double.of_Z elapsed) (Double.of_Z 3600000)) in
  let increment :=
    Single.of_double
      (Double.div
         (Double.of_single (Single.mul (PowerMonitorF.powerWatts pm) hours))
         (Double.of_Z 1000)) in
  PowerMonitorF.energyKwh (PowerMonitorF.updateEnergy now pm)
  = Single.add (PowerMonitorF.energyKwh pm) increment /\
  PowerMonitorF.lastEnergyCalcTime (PowerMonitorF.updateEnergy now pm) = now.
Proof.
  intros Hl He now hours increment. unfold PowerMonitorF.updateEnergy.
  assert (Hd : ulong_sub now (PowerMonitorF.lastEnergyCalcTime pm) = elapsed).
  { subst now. unfold ulong_sub.
    rewrite Zminus_mod_idemp_l.
    replace (PowerMonitorF.lastEnergyCalcTime pm + elapsed
             - PowerMonitorF.lastEnergyCalcTime pm)%Z
      with elapsed by ring.
    apply Z.mod_small. lia. }
  rewrite Hd.
  destruct (Z.ltb_spec 0 elapsed) as [_|Hn]; [|lia].
  split; reflexivity.
Qed.

Lemma updateEnergy_rollover_witness :
  PowerMonitorF.lastEnergyCalcTime
    (PowerMonitorF.updateEnergy 9995 SamplesF.loaded) = 9995%Z /\
  PowerMonitorF.energyKwh (PowerMonitorF.updateEnergy 9995 SamplesF.loaded)
  = S754_finite false 8388609 (-11).
Proof.
  pose proof (updateEnergy_rollover 10000 SamplesF.loaded) as H.
  assert (H1 : (0 <= PowerMonitorF.lastEnergyCalcTime SamplesF.loaded
                < ULONG_MODULUS)%Z) by (unfold ULONG_MODULUS; simpl; lia).
  assert (H2 : (0 < 10000 < ULONG_MODULUS)%Z) by (unfold ULONG_MODULUS; lia).
  specialize (H H1 H2).
  change ((PowerMonitorF.lastEnergyCalcTime SamplesF.loaded + 10000)
          mod ULONG_MODULUS)%Z with 9995%Z in H.
  destruct H as [He Hl]. split; [exact Hl|].
  rewrite He. vm_compute. reflexivity.
Defined.

End RoundedEnergyFacts.

Section MonitorFacts.

Import PowerMonitor Stats.

(** X2. [calculateRMSCurrent] never returns a value strictly between 0 and
    the noise floor: the result is 0 or at least 0.05.  With a calibration
    factor that is not negative it is monotone in the mean square. *)
Theorem calculateRMSCurrent_floor_gap (ms1 ms2 : R) (pm : PowerMonitor.t) :
  (calculateRMSCurrent ms1 pm = 0 \/ 0.05 <= calculateRMSCurrent ms1 pm) /\
  (0 <= calibrationFactor pm -> 0 <= ms1 <= ms2 ->
   calculateRMSCurrent ms1 pm <= calculateRMSCurrent ms2 pm).
Proof.
  unfold calculateRMSCurrent, CT_BURDEN_RESISTOR, CT_TURNS_RATIO. split.
  - destruct (Rlt_dec _ 0.05); [left; reflexivity | right; lra].
  - intros Hc [H0 Hle].
    assert (Hs : sqrt ms1 <= sqrt ms2) by (apply sqrt_le_1_alt; exact Hle).
    pose proof (sqrt_pos ms1) as Hp1.
    assert (Hraw : sqrt ms1 / 33 * 2000 * calibrationFactor pm
                   <= sqrt ms2 / 33 * 2000 * calibrationFactor pm).
    { apply Rmult_le_compat_r; [exact Hc | lra]. }
    destruct (Rlt_dec (sqrt ms1 / 33 * 2000 * calibrationFactor pm) 0.05);
      destruct (Rlt_dec (sqrt ms2 / 33 * 2000 * calibrationFactor pm) 0.05);
      lra.
Qed.

End MonitorFacts.

Section MonitorRuns.

Import PowerMonitor.

Lemma update_run_keeps_settings (cycles : list ((nat -> Z) * Z))
    (pm : PowerMonitor.t) :
  let pm' := fold_left (fun m c => update (fst c) (snd c) m) cycles pm in
  mainVoltage pm' = mainVoltage pm /\
  calibrationFactor pm' = calibrationFactor pm.
Proof.
  revert pm. induction cycles as [|c cycles IH]; intros pm; cbn [fold_left].
  - split; reflexivity.
  - destruct (IH (update (fst c) (snd c) pm)) as [Hv Hc].
    destruct (update_keeps_settings (fst c) (snd c) pm) as [Hv' Hc'].
    cbv zeta. rewrite Hv, Hc, Hv', Hc'. split; reflexivity.
Qed.

(** X6. Over a run of measurement cycles, whatever the samples and the
    clock readings, the energy never drops: it is at least the initial
    energy after any part of the run, and what a longer run leaves is at
    least what its beginning left (voltage and calibration not
    negative). *)
Theorem update_run_energy_monotone (earlier later : list ((nat -> Z) * Z))
    (pm : PowerMonitor.t) :
  0 <= mainVoltage pm -> 0 <= calibrationFactor pm ->
  let run := fold_left (fun m c => update (fst c) (snd c) m) in
  energyKwh pm <= energyKwh (run earlier pm) /\
  energyKwh (run earlier pm) <= energyKwh (run (earlier ++ later) pm).
Proof.
  intros Hv Hc run. subst run. split.
  - now apply update_cycles_energy_monotone.
  - rewrite fold_left_app.
    destruct (update_run_keeps_settings earlier pm) as [Hv' Hc'].
    apply update_cycles_energy_monotone; [rewrite Hv' | rewrite Hc'];
      assumption.
Qed.

End MonitorRuns.

Section WindowFacts.

Import AiProcessor Stats TrendSpec.

Lemma updatePrediction_history (ai : AiProcessor.t) :
  dataHistory (updatePrediction ai) = dataHistory ai.
Proof.
  unfold updatePrediction.
  destruct (length (dataHistory ai) <? 2)%nat; [|reflexivity].
  destruct (dataHistory ai) eqn:Hh; [exact Hh | reflexivity].
Qed.

Lemma update_history (data : PowerData) (ai : AiProcessor.t) :
  dataHistory (update data ai)
  = if (TREND_WINDOW_SIZE <? length (dataHistory ai ++ [data]))%nat
    then tl (dataHistory ai ++ [data])
    else dataHistory ai ++ [data].
Proof. unfold update. now rewrite updatePrediction_history. Qed.

Lemma tl_skipn {A : Type} (l : list A) : tl l = skipn 1 l.
Proof. destruct l; reflexivity. Qed.

(** The history after a run of updates from the initial state. *)
Lemma update_run_history (readings : list PowerData) :
  dataHistory (fold_left (fun a d => update d a) readings AiProcessor.init)
  = skipn (length readings - TREND_WINDOW_SIZE) readings.
Proof.
  induction readings as [|d readings IH] using rev_ind.
  - reflexivity.
  - rewrite fold_left_app. cbn [fold_left].
    rewrite update_history, IH.
    rewrite !length_app, length_skipn. cbn [length].
    unfold TREND_WINDOW_SIZE.
    destruct (Nat.ltb_spec 10
                (length readings - (length readings - 10) + 1))
      as [Hbig|Hsmall].
    + rewrite tl_skipn, skipn_app, skipn_skipn.
      rewrite length_skipn.
      replace (1 - (length readings - (length readings - 10)))%nat with 0%nat
        by lia.
      rewrite skipn_app.
      replace (length readings + 1 - 10 - length readings)%nat with 0%nat
        by lia.
      cbn [skipn]. f_equal. f_equal. lia.
    + rewrite skipn_app.
      replace (length readings + 1 - 10 - length readings)%nat with 0%nat
        by lia.
      cbn [skipn]. f_equal. f_equal. lia.
Qed.

(** X7. After any run of [AiProcessor::update] from the initial state the
    history is the last [TREND_WINDOW_SIZE] readings of the run, oldest
    first, so it never holds more than that many. *)
Theorem update_keeps_recent_window (readings : list PowerData) :
  let ai := fold_left (fun a d => update d a) readings AiProcessor.init in
  dataHistory ai = skipn (length readings - TREND_WINDOW_SIZE) readings /\
  length (dataHistory ai) = Nat.min (length readings) TREND_WINDOW_SIZE /\
  (length (dataHistory ai) <= TREND_WINDOW_SIZE)%nat.
Proof.
  cbv zeta. rewrite update_run_history, length_skipn. repeat split; lia.
Qed.

End WindowFacts.

Section AnalyticsFacts.

Import AiProcessor Stats TrendSpec.

(** X8. After any run of [update] with readings of non-negative power,
    from the initial state, [getPredictedPower] is not negative (short
    histories included, where the prediction is the last power and is not
    clamped). *)
Theorem prediction_never_negative (readings : list PowerData) :
  Forall (fun d => 0 <= power d) readings ->
  0 <= getPredictedPower
         (fold_left (fun a d => update d a) readings AiProcessor.init).
Proof.
  intros Hpos. induction readings as [|d readings IH] using rev_ind.
  - cbn. lra.
  - rewrite fold_left_app. cbn [fold_left].
    apply update_prediction_nonneg.
    apply Forall_app in Hpos as [_ Hd]. now inversion Hd.
Qed.




End AnalyticsFacts.

Section PayloadFacts.

Import DataManager DeliverySpec Main Timing.

(** X12. The payload leaves out the anomaly flag: readings that agree on
    timestamp, current, voltage, power and energy give the same document,
    whatever their flags.  (What is sent is the serialisation of this
    document; [serializeJson] itself is not modelled.) *)
Theorem convertDataToJson_omits_anomaly (d1 d2 : PowerData) :
  timestamp d1 = timestamp d2 -> current d1 = current d2 ->
  voltage d1 = voltage d2 -> power d1 = power d2 -> energy d1 = energy d2 ->
  convertDataToJson d1 = convertDataToJson d2.
Proof.
  intros Ht Hc Hv Hp He. unfold convertDataToJson.
  now rewrite Ht, Hc, Hv, Hp, He.
Qed.

Lemma convertDataToJson_omits_anomaly_witness :
  convertDataToJson (Cycle.withAnomaly (Samples.watts 150) true)
  = convertDataToJson (Samples.watts 150).
Proof.
  apply (convertDataToJson_omits_anomaly
           (Cycle.withAnomaly (Samples.watts 150) true) (Samples.watts 150));
    reflexivity.
Defined.

Lemma delayTotal_app (e1 e2 : list Event) :
  delayTotal (e1 ++ e2) = (delayTotal e1 + delayTotal e2)%Z.
Proof.
  induction e1 as [|e e1 IH]; cbn [app delayTotal fold_right].
  - reflexivity.
  - fold (delayTotal (e1 ++ e2)). fold (delayTotal e1).
    rewrite IH. destruct e; lia.
Qed.

Lemma attemptEvents_delay (url : string) (p : Json) (n : nat) :
  (n <= MAX_RETRY_ATTEMPTS)%nat ->
  (0 <= delayTotal (attemptEvents url p n) <= 1500)%Z.
Proof.
  unfold MAX_RETRY_ATTEMPTS. intros Hn.
  destruct n as [|[|[|[|n]]]]; cbn; lia.
Qed.

Lemma drainEvents_delay (url : string) (plan : list Attempted) :
  Forall (fun a => (1 <= attempts a <= MAX_RETRY_ATTEMPTS)%nat) plan ->
  (100 * Z.of_nat (length plan) <= delayTotal (drainEvents url plan)
   <= 1600 * Z.of_nat (length plan))%Z.
Proof.
  induction 1 as [|a plan Ha _ IH].
  - cbn. lia.
  - unfold drainEvents in *. cbn [flat_map length].
    rewrite !delayTotal_app.
    pose proof (attemptEvents_delay url
                  (convertDataToJson (reading a)) (attempts a)) as Hd.
    change (delayTotal [Delay 100]) with 100%Z.
    rewrite Nat2Z.inj_succ. lia.
Qed.

Lemma drainPosts_bounds (plan : list Attempted) :
  Forall (fun a => (1 <= attempts a <= MAX_RETRY_ATTEMPTS)%nat) plan ->
  (length plan <= drainPosts plan <= MAX_RETRY_ATTEMPTS * length plan)%nat.
Proof.
  unfold drainPosts.
  induction 1 as [|a plan Ha _ IH]; cbn [map length].
  - cbn. lia.
  - change (list_sum (?x :: ?l)) with (x + list_sum l)%nat.
    unfold MAX_RETRY_ATTEMPTS in *. lia.
Qed.

(** X13. Draining a buffer of [n] readings makes between [n] and [3 * n]
    POSTs and waits between [100 * n] and [1600 * n] ms in all (the backoff
    of each send and the pause after each reading). *)
Theorem sendBufferedData_cost (dm : DataManager.t) (w : World) :
  let r := sendBufferedData dm w in
  let n := length (dataBuffer dm) in
  (posts w + n <= posts (snd r) <= posts w + 3 * n)%nat /\
  exists added,
    trace (snd r) = trace w ++ added /\
    (100 * Z.of_nat n <= delayTotal added <= 1600 * Z.of_nat n)%Z.
Proof.
  cbv zeta. rewrite sendBufferedData_run. cbn [snd posts trace].
  set (plan := drain MAX_RETRY_ATTEMPTS (transport w) (posts w)
                     (dataBuffer dm)).
  assert (Hplan : Forall (fun a => (1 <= attempts a <= MAX_RETRY_ATTEMPTS)%nat)
                         plan).
  { apply drain_attempts. unfold MAX_RETRY_ATTEMPTS. lia. }
  assert (Hlen : length plan = length (dataBuffer dm)) by apply drain_length.
  pose proof (drainPosts_bounds plan Hplan) as Hp.
  pose proof (drainEvents_delay (backendUrl dm) plan Hplan) as Hd.
  rewrite Hlen in Hp, Hd. unfold MAX_RETRY_ATTEMPTS in Hp.
  split; [lia|].
  exists (drainEvents (backendUrl dm) plan). split; [reflexivity | exact Hd].
Qed.

Lemma filter_shorter {A : Type} (f : A -> bool) (l : list A) :
  (length (filter f l) < length l)%nat <-> exists x, In x l /\ f x = false.
Proof.
  induction l as [|x l IH]; cbn [filter length In].
  - split; [lia | intros [x [[] _]]].
  - pose proof (filter_length_le f l) as Hle.
    destruct (f x) eqn:Hfx; cbn [length].
    + rewrite <- Nat.succ_lt_mono, IH. split.
      * intros [y [Hy Hf]]. exists y. auto.
      * intros [y [[<-|Hy] Hf]]; [congruence | exists y; auto].
    + split; [intros _; exists x; auto | intros _; lia].
Qed.

(** X14. With an empty buffer [sendBufferedData] returns true and touches
    neither the manager nor the network.  With a non-empty buffer it
    returns true exactly when at least one reading was delivered. *)
Theorem sendBufferedData_flag (dm : DataManager.t) (w : World) :
  let plan :=
    drain MAX_RETRY_ATTEMPTS (transport w) (posts w) (dataBuffer dm) in
  (dataBuffer dm = [] -> sendBufferedData dm w = ((true, dm), w)) /\
  (dataBuffer dm <> [] ->
   (fst (fst (sendBufferedData dm w)) = true
    <-> exists a, In a plan /\ wasDelivered a = true)).
Proof.
  intros plan. split.
  - intros Hempty. unfold sendBufferedData. rewrite Hempty. reflexivity.
  - intros Hne. rewrite sendBufferedData_run. cbn [fst].
    destruct (dataBuffer dm) as [|d rest] eqn:Hbuf; [contradiction|].
    fold plan. rewrite Nat.ltb_lt. unfold retained. rewrite length_map.
    replace (length (d :: rest)) with (length plan)
      by (subst plan; apply drain_length).
    rewrite filter_shorter. split.
    + intros [a [Ha Hf]]. exists a. split; [exact Ha|].
      now apply negb_false_iff.
    + intros [a [Ha Hf]]. exists a. split; [exact Ha|]. now rewrite Hf.
Qed.

Lemma attemptsNeeded_first_ok (k : nat) (tr : nat -> Z) (start : nat) :
  isOk (tr start) = true ->
  attemptsNeeded (S k) tr start = 1%nat /\ delivered (S k) tr start = true.
Proof.
  intros Hok. rewrite delivered_S. cbn [attemptsNeeded]. now rewrite Hok.
Qed.

Lemma drain_all_ok (tr : nat -> Z) (start : nat) (items : list PowerData) :
  (forall k, (start <= k)%nat -> tr k = HTTP_CODE_OK) ->
  drain MAX_RETRY_ATTEMPTS tr start items
  = map (fun d => mkAttempted d 1 true) items.
Proof.
  revert start. induction items as [|d rest IH]; intros start Hok;
    cbn [drain map].
  - reflexivity.
  - assert (H0 : isOk (tr start) = true) by (apply isOk_true, Hok; lia).
    destruct (attemptsNeeded_first_ok 2 tr start H0) as [Hn Hd].
    change MAX_RETRY_ATTEMPTS with 3%nat. rewrite Hn, Hd. f_equal.
    apply IH. intros k Hk. apply Hok. lia.
Qed.

Lemma never_ok (k : nat) (tr : nat -> Z) (start : nat) :
  (forall j, (start <= j)%nat -> tr j <> HTTP_CODE_OK) ->
  attemptsNeeded k tr start = k /\ delivered k tr start = false.
Proof.
  revert start. induction k as [|k IH]; intros start Hbad.
  - split; reflexivity.
  - rewrite delivered_S. cbn [attemptsNeeded].
    assert (H0 : isOk (tr start) = false).
    { destruct (isOk (tr start)) eqn:E; [|reflexivity].
      apply isOk_true in E. exfalso. apply (Hbad start); [lia | exact E]. }
    rewrite H0. cbn [orb].
    destruct (IH (S start)) as [Hn Hd]; [intros j Hj; apply Hbad; lia|].
    now rewrite Hn, Hd.
Qed.

Lemma drain_none_ok (tr : nat -> Z) (start : nat) (items : list PowerData) :
  (forall k, (start <= k)%nat -> tr k <> HTTP_CODE_OK) ->
  drain MAX_RETRY_ATTEMPTS tr start items
  = map (fun d => mkAttempted d MAX_RETRY_ATTEMPTS false) items.
Proof.
  revert start. induction items as [|d rest IH]; intros start Hbad;
    cbn [drain map].
  - reflexivity.
  - destruct (never_ok MAX_RETRY_ATTEMPTS tr start Hbad) as [Hn Hd].
    rewrite Hn, Hd. f_equal. apply IH. intros k Hk. apply Hbad. lia.
Qed.

Lemma drainPosts_uniform (k : nat) (ok : bool) (items : list PowerData) :
  drainPosts (map (fun d => mkAttempted d k ok) items)
  = (k * length items)%nat.
Proof.
  unfold drainPosts. induction items as [|d rest IH]; cbn [map length].
  - cbn. lia.
  - change (list_sum (?x :: ?l)) with (x + list_sum l)%nat.
    rewrite IH. cbn [attempts]. lia.
Qed.

Lemma retained_uniform (k : nat) (ok : bool) (items : list PowerData) :
  retained (map (fun d => mkAttempted d k ok) items)
  = if ok then [] else items.
Proof.
  unfold retained. induction items as [|d rest IH]; cbn [map filter].
  - now destruct ok.
  - cbn [wasDelivered]. destruct ok; cbn [negb map] in *; [exact IH|].
    now rewrite IH.
Qed.

(** X15. When every response is 200 the drain empties the buffer with one
    POST per reading; when no response is 200 it leaves the buffer exactly
    as it was after three POSTs per reading, and reports false if there
    was anything to send. *)
Theorem sendBufferedData_extremes (dm : DataManager.t) (w : World) :
  let r := sendBufferedData dm w in
  let n := length (dataBuffer dm) in
  ((forall k, (posts w <= k)%nat -> transport w k = HTTP_CODE_OK) ->
   dataBuffer (snd (fst r)) = [] /\ posts (snd r) = (posts w + n)%nat) /\
  ((forall k, (posts w <= k)%nat -> transport w k <> HTTP_CODE_OK) ->
   dataBuffer (snd (fst r)) = dataBuffer dm /\
   posts (snd r) = (posts w + 3 * n)%nat /\
   (dataBuffer dm <> [] -> fst (fst r) = false)).
Proof.
  cbv zeta. rewrite sendBufferedData_run.
  cbn [fst snd dataBuffer posts]. split.
  - intros Hok. rewrite (drain_all_ok _ _ _ Hok).
    rewrite retained_uniform, drainPosts_uniform. split; [reflexivity | lia].
  - intros Hbad. rewrite (drain_none_ok _ _ _ Hbad).
    rewrite retained_uniform, drainPosts_uniform.
    split; [reflexivity|]. split; [reflexivity|].
    intros Hne. destruct (dataBuffer dm); [contradiction|].
    apply Nat.ltb_irrefl.
Qed.

End PayloadFacts.

Section LoopDeliveryFacts.

Import DataManager DeliverySpec Main Timing Cycle.

Lemma bufferData_buffer (data : PowerData) (dm : DataManager.t) :
  dataBuffer (bufferData data dm)
  = (if (length (dataBuffer dm) <? DATA_BUFFER_SIZE)%nat
     then dataBuffer dm else tl (dataBuffer dm)) ++ [data].
Proof.
  unfold bufferData.
  destruct (length (dataBuffer dm) <? DATA_BUFFER_SIZE)%nat; reflexivity.
Qed.

(** X16. Buffering a run of readings into an empty buffer leaves the last
    [DATA_BUFFER_SIZE] of them, oldest first: nothing is dropped below the
    capacity and beyond it the oldest go first. *)
Theorem bufferData_keeps_newest (readings : list PowerData)
    (dm : DataManager.t) :
  dataBuffer dm = [] ->
  dataBuffer (fold_left (fun m d => bufferData d m) readings dm)
  = skipn (length readings - DATA_BUFFER_SIZE) readings.
Proof.
  intros Hempty. induction readings as [|d readings IH] using rev_ind.
  - cbn. exact Hempty.
  - rewrite fold_left_app. cbn [fold_left].
    rewrite bufferData_buffer, IH, length_skipn, length_app.
    cbn [length]. unfold DATA_BUFFER_SIZE.
    destruct (Nat.ltb_spec (length readings - (length readings - 100)) 100)
      as [Hroom|Hfull].
    + rewrite skipn_app.
      replace (length readings + 1 - 100 - length readings)%nat with 0%nat
        by lia.
      cbn [skipn]. f_equal. f_equal. lia.
    + rewrite tl_skipn, skipn_skipn, skipn_app.
      replace (length readings + 1 - 100 - length readings)%nat with 0%nat
        by lia.
      cbn [skipn]. f_equal. f_equal. lia.
Qed.

Lemma attemptEvents_ends_with_post (url : string) (p : Json) (n : nat) :
  (1 <= n)%nat ->
  exists front, attemptEvents url p n = front ++ [POST url p].
Proof.
  intros Hn. unfold attemptEvents, attemptEventsFrom.
  destruct n as [|[|m]]; [lia | exists []; reflexivity |].
  rewrite seq_S, flat_map_app. cbn [flat_map app].
  eexists (POST url p :: _ ++ [Delay _]).
  cbn [app]. rewrite <- app_assoc. reflexivity.
Qed.

(** X17. The delivery step of a cycle never loses the reading of the
    cycle: without a connection it touches no network and buffers the
    reading; in every case afterwards either the reading is the newest
    entry of the buffer, or the last request made was a POST of its payload
    that was answered 200. *)
Theorem deliver_keeps_or_delivers (connected : bool) (data : PowerData)
    (dm : DataManager.t) (w : World) :
  let r := deliver connected data dm w in
  (connected = false -> r = (bufferData data dm, w)) /\
  ((exists front, dataBuffer (fst r) = front ++ [data]) \/
   (connected = true /\
    transport w (posts (snd r) - 1) = HTTP_CODE_OK /\
    exists earlier,
      trace (snd r)
      = earlier ++ [POST (backendUrl dm) (convertDataToJson data)])).
Proof.
  cbv zeta. split.
  - intros ->. reflexivity.
  - destruct connected; unfold deliver.
    2:{ left. unfold ret. cbn [fst]. rewrite bufferData_buffer. eauto. }
    rewrite !bind_run.
    set (drained :=
           (if hasBufferedData dm
            then bind (sendBufferedData dm) (fun r => ret (snd r))
            else ret dm) w).
    assert (Hd : backendUrl (fst drained) = backendUrl dm /\
                 transport (snd drained) = transport w).
    { subst drained. destruct (hasBufferedData dm).
      - rewrite bind_run, sendBufferedData_run. split; reflexivity.
      - split; reflexivity. }
    destruct Hd as [Hurl Htr].
    rewrite sendData_run. cbn [fst snd]. rewrite Htr, Hurl.
    set (start := posts (snd drained)).
    set (n := attemptsNeeded MAX_RETRY_ATTEMPTS (transport w) start).
    destruct (delivered MAX_RETRY_ATTEMPTS (transport w) start) eqn:Hdel;
      unfold ret; cbn [negb fst snd posts trace].
    + right. split; [reflexivity|].
      pose proof (attemptsNeeded_bounds MAX_RETRY_ATTEMPTS (transport w) start)
        as [_ Hge].
      assert (Hn : (1 <= n)%nat) by (apply Hge; unfold MAX_RETRY_ATTEMPTS; lia).
      split.
      * rewrite delivered_last in Hdel by (unfold MAX_RETRY_ATTEMPTS; lia).
        apply isOk_true in Hdel. fold n in Hdel.
        replace (start + n - 1)%nat with (start + (n - 1))%nat by lia.
        exact Hdel.
      * destruct (attemptEvents_ends_with_post (backendUrl dm)
                    (convertDataToJson data) n Hn) as [front Hfront].
        exists (trace (snd drained) ++ front).
        rewrite Hfront. now rewrite app_assoc.
    + left. rewrite bufferData_buffer. eauto.
Qed.

(** X18. Over any run of cycles, connected or not, whatever the
    transport answers, the delivery buffer stays within its capacity. *)
Theorem deliverAll_bounded (cycles : list (bool * PowerData))
    (dm : DataManager.t) (w : World) :
  (length (dataBuffer dm) <= DATA_BUFFER_SIZE)%nat ->
  (length (dataBuffer (fst (deliverAll cycles dm w))) <= DATA_BUFFER_SIZE)%nat.
Proof.
  revert dm w. induction cycles as [|[connected data] rest IH];
    intros dm w Hle; cbn [deliverAll].
  - exact Hle.
  - rewrite bind_run. apply IH. now apply deliver_bounded.
Qed.

Lemma payloads_app (e1 e2 : list Event) :
  payloads (e1 ++ e2) = payloads e1 ++ payloads e2.
Proof. unfold payloads. apply flat_map_app. Qed.

Lemma drainEvents_all_ok (url : string) (items : list PowerData) :
  payloads (drainEvents url (map (fun d => mkAttempted d 1 true) items))
  = map convertDataToJson items.
Proof.
  unfold drainEvents. induction items as [|d rest IH]; cbn [map flat_map].
  - reflexivity.
  - rewrite payloads_app, IH. reflexivity.
Qed.

(** X19. With a transport that answers 200 to every request, a connected
    cycle empties the buffer: it POSTs the buffered readings once each,
    oldest first, then the reading of the cycle, and nothing else. *)
Theorem deliver_recovers_in_order (data : PowerData) (dm : DataManager.t)
    (w : World) :
  (forall k, (posts w <= k)%nat -> transport w k = HTTP_CODE_OK) ->
  let r := deliver true data dm w in
  dataBuffer (fst r) = [] /\
  exists added,
    trace (snd r) = trace w ++ added /\
    payloads added = map convertDataToJson (dataBuffer dm ++ [data]).
Proof.
  intros Hok. cbv zeta. unfold deliver. rewrite !bind_run.
  set (drained :=
         (if hasBufferedData dm
          then bind (sendBufferedData dm) (fun r => ret (snd r))
          else ret dm) w).
  assert (Hd : fst drained
               = {| backendUrl := backendUrl dm; dataBuffer := [] |} /\
               snd drained
               = {| transport := transport w;
                    posts := posts w + length (dataBuffer dm);
                    trace := trace w
                      ++ drainEvents (backendUrl dm)
                           (map (fun d => mkAttempted d 1 true)
                                (dataBuffer dm)) |}).
  { subst drained. unfold hasBufferedData.
    destruct (dataBuffer dm) as [|d rest] eqn:Hbuf.
    - unfold ret. cbn. rewrite Nat.add_0_r, app_nil_r.
      destruct dm, w; cbn in *; subst; split; reflexivity.
    - rewrite bind_run, sendBufferedData_run. unfold ret. cbn [fst snd].
      rewrite Hbuf, (drain_all_ok _ _ _ Hok).
      rewrite retained_uniform, drainPosts_uniform.
      split; [reflexivity|]. f_equal. lia. }
  destruct Hd as [Hdm Hw]. rewrite sendData_run, Hdm, Hw.
  cbn [fst snd transport posts trace backendUrl].
  assert (H0 : isOk (transport w (posts w + length (dataBuffer dm))) = true)
    by (apply isOk_true, Hok; lia).
  destruct (attemptsNeeded_first_ok 2 (transport w) _ H0) as [Hn Hdel].
  change MAX_RETRY_ATTEMPTS with 3%nat. rewrite Hn, Hdel.
  unfold ret. cbn [negb fst snd dataBuffer trace]. split; [reflexivity|].
  eexists. rewrite <- app_assoc. split; [reflexivity|].
  rewrite payloads_app, drainEvents_all_ok, map_app. reflexivity.
Qed.

End LoopDeliveryFacts.

Section CycleFacts.

Import PowerMonitor AiProcessor Cycle.




(** X22. The test that gates the sending and analytics blocks is safe
    across the roll-over of the clock: when [elapsed] ms have passed since
    the stored time, the block is due exactly when [elapsed] reaches the
    interval, also when the clock has wrapped in between. *)
Theorem due_survives_rollover (last elapsed interval : Z) :
  (0 <= last < ULONG_MODULUS)%Z -> (0 <= elapsed < ULONG_MODULUS)%Z ->
  due ((last + elapsed) mod ULONG_MODULUS) last interval
  = (interval <=? elapsed)%Z.
Proof.
  intros Hl He. unfold due, ulong_sub.
  rewrite Zminus_mod_idemp_l.
  replace (last + elapsed - last)%Z with elapsed by ring.
  now rewrite Z.mod_small by lia.
Qed.

End CycleFacts.

Section NetworkFacts.

Import NetworkManager.

Lemma ntpWait_bounds (fuel : nat) (timeNow : nat -> Z) (retry : nat) :
  (retry <= ntpWait fuel timeNow retry <= Nat.max retry 10)%nat.
Proof.
  revert retry. induction fuel as [|fuel IH]; intros retry; cbn [ntpWait].
  - destruct (_ && _); lia.
  - destruct ((timeNow retry <? 24 * 3600)%Z) eqn:Ht; cbn [andb]; [|lia].
    destruct (Nat.ltb_spec retry 10) as [Hlt|Hge]; [|lia].
    specialize (IH (S retry)). lia.
Qed.

(** The waiting loop ends on its own: with fuel for the iterations left,
    its condition is false when it returns. *)
Lemma ntpWait_exits (fuel : nat) (timeNow : nat -> Z) (retry : nat) :
  (10 <= retry + fuel)%nat ->
  let r := ntpWait fuel timeNow retry in
  (timeNow r <? 24 * 3600)%Z && (r <? 10)%nat = false.
Proof.
  revert retry. induction fuel as [|fuel IH]; intros retry Hfuel;
    cbn [ntpWait].
  - destruct ((timeNow retry <? 24 * 3600)%Z && (retry <? 10)%nat) eqn:Hc;
      cbv zeta; [|exact Hc].
    apply andb_true_iff in Hc as [_ Hc]. apply Nat.ltb_lt in Hc. lia.
  - destruct ((timeNow retry <? 24 * 3600)%Z && (retry <? 10)%nat) eqn:Hc;
      cbv zeta; [|exact Hc].
    apply IH. lia.
Qed.

Lemma ntpWait_gives_up (fuel : nat) (timeNow : nat -> Z) (retry : nat) :
  (10 <= retry + fuel)%nat -> (retry <= 10)%nat ->
  (ntpWait fuel timeNow retry = 10%nat <->
   forall k, (retry <= k < 10)%nat -> (timeNow k < 24 * 3600)%Z).
Proof.
  revert retry. induction fuel as [|fuel IH]; intros retry Hfuel Hle;
    cbn [ntpWait].
  - assert (retry = 10%nat) by lia. subst retry.
    rewrite Nat.ltb_irrefl, andb_false_r. split; [lia | reflexivity].
  - destruct (Z.ltb_spec (timeNow retry) (24 * 3600)) as [Hlow|Hhigh];
      cbn [andb].
    + destruct (Nat.ltb_spec retry 10) as [Hlt|Hge].
      * rewrite IH by lia. split.
        -- intros Hall k Hk. destruct (Nat.eq_dec k retry) as [->|Hne];
             [exact Hlow | apply Hall; lia].
        -- intros Hall k Hk. apply Hall. lia.
      * split; [lia | intros _; lia].
    + split.
      * intros ->. lia.
      * intros Hall. destruct (Nat.eq_dec retry 10) as [Heq|Hne]; [exact Heq|].
        specialize (Hall retry). lia.
Qed.

(** X23. [configureNTP] starts the synchronisation and then waits one
    second at a time, at most ten times; the wait ends by itself.  It
    gives up after ten waits exactly when the first ten clock readings are
    all below one day, and only then clears [ntpConfigured]; otherwise the
    manager is unchanged. *)
Theorem configureNTP_waits (timeNow : nat -> Z) (nm : NetworkManager.t) :
  let r := configureNTP timeNow nm in
  exists retry,
    (retry <= 10)%nat /\
    snd r = ConfigTime :: repeat (Wait 1000) retry /\
    (timeNow retry <? 24 * 3600)%Z && (retry <? 10)%nat = false /\
    (retry = 10%nat <->
     forall k, (k < 10)%nat -> (timeNow k < 24 * 3600)%Z) /\
    (retry = 10%nat -> ntpConfigured (fst r) = false) /\
    ((retry < 10)%nat -> fst r = nm).
Proof.
  cbv zeta. unfold configureNTP. exists (ntpWait 10 timeNow 0).
  pose proof (ntpWait_bounds 10 timeNow 0) as Hb. cbn [Nat.max] in Hb.
  pose proof (ntpWait_exits 10 timeNow 0) as Hx. cbv zeta in Hx.
  pose proof (ntpWait_gives_up 10 timeNow 0) as Hg.
  split; [lia|]. split.
  { destruct (ntpWait 10 timeNow 0 <? 10)%nat; reflexivity. }
  split; [apply Hx; lia|]. split.
  { rewrite Hg by lia. split; intros Hall k Hk; apply Hall; lia. }
  split.
  - intros Heq. rewrite Heq. reflexivity.
  - intros Hlt. apply Nat.ltb_lt in Hlt. rewrite Hlt. reflexivity.
Qed.

Lemma update_cases (i : Inputs) (nm : NetworkManager.t) :
  let tail := PortalProcess :: (if otaEnabled nm then [OTAHandle] else []) in
  update i nm
  = if s_connected i then
      if ntpConfigured nm then
        ({| connected := true;
            lastReconnectAttempt := lastReconnectAttempt nm;
            ntpConfigured := true;
            otaEnabled := otaEnabled nm |}, tail)
      else
        ({| connected := true;
            lastReconnectAttempt := lastReconnectAttempt nm;
            ntpConfigured := true;
            otaEnabled := otaEnabled nm |},
         ConfigTime
         :: repeat (Wait 1000) (ntpWait 10 (timeNow i) 0) ++ tail)
    else if (CONNECTION_TIMEOUT
             <? ulong_sub (currentMillis i) (lastReconnectAttempt nm))%Z
    then
      ({| connected := false;
          lastReconnectAttempt := currentMillis i;
          ntpConfigured := ntpConfigured nm;
          otaEnabled := otaEnabled nm |},
       connectToWifi (joined i) ++ tail)
    else
      ({| connected := false;
          lastReconnectAttempt := lastReconnectAttempt nm;
          ntpConfigured := ntpConfigured nm;
          otaEnabled := otaEnabled nm |}, tail).
Proof.
  cbv zeta. unfold update, configureNTP.
  cbn [connected ntpConfigured otaEnabled lastReconnectAttempt].
  destruct (s_connected i); cbn [negb].
  - destruct (ntpConfigured nm) eqn:Hntp; cbn [negb]; [reflexivity|].
    destruct (ntpWait 10 (timeNow i) 0 <? 10)%nat; reflexivity.
  - destruct (CONNECTION_TIMEOUT <? _)%Z; reflexivity.
Qed.

Lemma timeSyncs_app (a1 a2 : list Action) :
  timeSyncs (a1 ++ a2) = (timeSyncs a1 + timeSyncs a2)%nat.
Proof. unfold timeSyncs. now rewrite filter_app, length_app. Qed.

Lemma connectAttempts_app (a1 a2 : list Action) :
  connectAttempts (a1 ++ a2) = (connectAttempts a1 + connectAttempts a2)%nat.
Proof. unfold connectAttempts. now rewrite filter_app, length_app. Qed.

Lemma waits_counts (n : nat) :
  timeSyncs (repeat (Wait 1000) n) = 0%nat /\
  connectAttempts (repeat (Wait 1000) n) = 0%nat.
Proof.
  unfold timeSyncs, connectAttempts.
  induction n as [|n [IH1 IH2]]; cbn [repeat filter]; split; auto.
Qed.

Lemma tail_counts (ota : bool) :
  timeSyncs (PortalProcess :: (if ota then [OTAHandle] else [])) = 0%nat /\
  connectAttempts (PortalProcess :: (if ota then [OTAHandle] else []))
  = 0%nat.
Proof. destruct ota; split; reflexivity. Qed.

Lemma connectToWifi_counts (j : bool) :
  timeSyncs (connectToWifi j) = 0%nat /\
  connectAttempts (connectToWifi j) = 1%nat.
Proof. destruct j; split; reflexivity. Qed.

(** One call of [update]: the flags afterwards and what it asked for. *)
Lemma update_summary (i : Inputs) (nm : NetworkManager.t) :
  let r := update i nm in
  let late :=
    (CONNECTION_TIMEOUT
     <? ulong_sub (currentMillis i) (lastReconnectAttempt nm))%Z in
  connected (fst r) = s_connected i /\
  ntpConfigured (fst r) = s_connected i || ntpConfigured nm /\
  otaEnabled (fst r) = otaEnabled nm /\
  lastReconnectAttempt (fst r)
  = (if negb (s_connected i) && late then currentMillis i
     else lastReconnectAttempt nm) /\
  timeSyncs (snd r)
  = (if s_connected i && negb (ntpConfigured nm) then 1 else 0)%nat /\
  connectAttempts (snd r)
  = (if negb (s_connected i) && late then 1 else 0)%nat.
Proof.
  cbv zeta. rewrite update_cases.
  generalize (ntpWait 10 (timeNow i) 0). intros retry.
  destruct (tail_counts (otaEnabled nm)) as [Ht1 Ht2].
  destruct (waits_counts retry) as [Hw1 Hw2].
  destruct (connectToWifi_counts (joined i)) as [Hc1 Hc2].
  destruct (s_connected i); cbn [negb andb orb].
  - destruct (ntpConfigured nm); cbn [negb fst snd connected ntpConfigured
      otaEnabled lastReconnectAttempt].
    + repeat split; assumption.
    + change (ConfigTime :: ?l) with ([ConfigTime] ++ l).
      rewrite !timeSyncs_app, !connectAttempts_app, Ht1, Ht2, Hw1, Hw2.
      repeat split.
  - destruct (CONNECTION_TIMEOUT <? _)%Z;
      cbn [fst snd connected ntpConfigured otaEnabled lastReconnectAttempt].
    + rewrite timeSyncs_app, connectAttempts_app, Ht1, Ht2, Hc1, Hc2.
      repeat split.
    + repeat split; assumption.
Qed.

Lemma updates_cons (i : Inputs) (rest : list Inputs)
    (nm : NetworkManager.t) :
  updates (i :: rest) nm
  = (fst (updates rest (fst (update i nm))),
     snd (update i nm) ++ snd (updates rest (fst (update i nm)))).
Proof.
  cbn [updates]. destruct (update i nm) as [nm1 acts1]. cbn [fst snd].
  destruct (updates rest nm1); reflexivity.
Qed.

(** X24. Over any run of [update] the time synchronisation is started at
    most once: once if the manager was not configured and some call saw
    the connection up, never otherwise.  [ntpConfigured] is set from the
    first such call on, whether or not the synchronisation succeeded. *)
Theorem updates_sync_time_once (inputs : list Inputs)
    (nm : NetworkManager.t) :
  let r := updates inputs nm in
  let online := existsb s_connected inputs in
  ntpConfigured (fst r) = online || ntpConfigured nm /\
  timeSyncs (snd r)
  = (if online && negb (ntpConfigured nm) then 1 else 0)%nat.
Proof.
  cbv zeta. revert nm. induction inputs as [|i rest IH]; intros nm.
  - cbn. split; reflexivity.
  - rewrite updates_cons. cbn [fst snd existsb].
    destruct (update_summary i nm) as (_ & Hntp & _ & _ & Hsync & _).
    destruct (IH (fst (update i nm))) as [IH1 IH2].
    rewrite timeSyncs_app, IH1, IH2, Hsync, Hntp.
    destruct (s_connected i), (existsb s_connected rest), (ntpConfigured nm);
      split; reflexivity.
Qed.

(** X25. Reconnection attempts are spaced: calls of [update] whose clock
    is within [CONNECTION_TIMEOUT] of the last attempt make no attempt and
    keep its time, connected or not; a call without connection later than
    that makes exactly one attempt and records its time. *)
Theorem updates_space_reconnects (inputs : list Inputs)
    (nm : NetworkManager.t) (i : Inputs) :
  (0 <= lastReconnectAttempt nm)%Z ->
  (lastReconnectAttempt nm + CONNECTION_TIMEOUT < ULONG_MODULUS)%Z ->
  ((forall j, In j inputs ->
      (lastReconnectAttempt nm <= currentMillis j
       <= lastReconnectAttempt nm + CONNECTION_TIMEOUT)%Z) ->
   connectAttempts (snd (updates inputs nm)) = 0%nat /\
   lastReconnectAttempt (fst (updates inputs nm)) = lastReconnectAttempt nm)
  /\
  (s_connected i = false ->
   (lastReconnectAttempt nm + CONNECTION_TIMEOUT < currentMillis i
    < ULONG_MODULUS)%Z ->
   connectAttempts (snd (update i nm)) = 1%nat /\
   lastReconnectAttempt (fst (update i nm)) = currentMillis i).
Proof.
  intros Hlo Hhi. split.
  - revert nm Hlo Hhi. induction inputs as [|j rest IH]; intros nm Hlo Hhi Hwin.
    + cbn. split; reflexivity.
    + rewrite updates_cons. cbn [fst snd].
      destruct (update_summary j nm) as (_ & _ & _ & Hlast & _ & Hconn).
      assert (Hj : (lastReconnectAttempt nm <= currentMillis j
                    <= lastReconnectAttempt nm + CONNECTION_TIMEOUT)%Z)
        by (apply Hwin; now left).
      assert (Hearly : (CONNECTION_TIMEOUT
                        <? ulong_sub (currentMillis j)
                                     (lastReconnectAttempt nm))%Z = false).
      { apply Z.ltb_ge.
        unfold ulong_sub, CONNECTION_TIMEOUT, ULONG_MODULUS in *.
        rewrite Z.mod_small; lia. }
      rewrite Hearly, andb_false_r in Hlast, Hconn.
      destruct (IH (fst (update j nm))) as [IH1 IH2];
        try (rewrite Hlast; assumption).
      { intros k Hk. rewrite Hlast. apply Hwin. now right. }
      rewrite connectAttempts_app, Hconn, IH1, IH2, Hlast.
      split; reflexivity.
  - intros Hoff Hlate.
    destruct (update_summary i nm) as (_ & _ & _ & Hlast & _ & Hconn).
    assert (Hl : (CONNECTION_TIMEOUT
                  <? ulong_sub (currentMillis i)
                               (lastReconnectAttempt nm))%Z = true).
    { apply Z.ltb_lt. unfold ulong_sub, CONNECTION_TIMEOUT, ULONG_MODULUS in *.
      rewrite Z.mod_small; lia. }
    rewrite Hoff, Hl in Hlast, Hconn. cbn in Hlast, Hconn.
    split; assumption.
Qed.

End NetworkFacts.

Section ButtonFacts.

Import ConfigButton.

(** X26. [checkConfigButton] records the reading and starts the portal
    only on a LOW reading.  A call that sees the reading change does not
    start it when its two clock reads are no more than 50 ms apart.  A
    reading that stays LOW for more than 50 ms starts the portal and
    leaves the state as it was, so every later call while the button is
    held starts it again. *)
Theorem checkConfigButton_debounce (reading millisAtChange millisAtCheck : Z)
    (s : ConfigButton.t) :
  let r := checkConfigButton reading millisAtChange millisAtCheck s in
  lastButtonState (fst r) = reading /\
  (snd r = true -> reading = LOW) /\
  (reading <> lastButtonState s ->
   (0 <= millisAtChange <= millisAtCheck)%Z ->
   (millisAtCheck <= millisAtChange + debounceDelay)%Z ->
   (millisAtCheck < ULONG_MODULUS)%Z ->
   snd r = false) /\
  (reading = lastButtonState s -> reading = LOW ->
   (0 <= lastDebounceTime s)%Z ->
   (lastDebounceTime s + debounceDelay < millisAtCheck < ULONG_MODULUS)%Z ->
   snd r = true /\ fst r = s).
Proof.
  cbv zeta. unfold checkConfigButton. cbn [fst snd lastButtonState].
  split; [reflexivity|]. split; [|split].
  - destruct (debounceDelay <? _)%Z; [|discriminate].
    destruct (Z.eqb_spec reading LOW); [auto | discriminate].
  - intros Hchg Hm Hsoon Hmax.
    destruct (Z.eqb_spec reading (lastButtonState s)) as [Heq|_];
      [contradiction|]. cbn [negb].
    destruct (Z.ltb_spec debounceDelay
                (ulong_sub millisAtCheck millisAtChange)) as [Hlate|_];
      [|reflexivity].
    exfalso. unfold ulong_sub, debounceDelay, ULONG_MODULUS in *.
    rewrite Z.mod_small in Hlate; lia.
  - intros Hsame Hlow Hpos Hlate. subst reading.
    rewrite Z.eqb_refl. cbn [negb].
    destruct (Z.ltb_spec debounceDelay
                (ulong_sub millisAtCheck (lastDebounceTime s))) as [_|Hsoon].
    + rewrite Hlow. cbn. split; [reflexivity|].
      rewrite <- Hlow. destruct s; reflexivity.
    + exfalso. unfold ulong_sub, debounceDelay, ULONG_MODULUS in *.
      rewrite Z.mod_small in Hsoon; lia.
Qed.

End ButtonFacts.

Section DisplayFacts.

Import Display.
Local Open Scope Z_scope.

(** X27. For a bar at least 4 wide and a percentage up to 100,
    [drawProgressBar] draws the frame, fills [(w - 4) * percent / 100]
    columns from the left margin and clears the rest of the [w - 4] inner
    columns, the cleared part starting where the filled part ends; 0%
    fills nothing and 100% fills all of it. *)
Theorem drawProgressBar_tiles (x y w h percent frameColor barColor : Z) :
  4 <= w < 2 ^ 16 -> 0 <= percent <= 100 ->
  exists barWidth rest,
    drawProgressBar x y w h percent frameColor barColor
    = DrawRect x y w h frameColor
      :: FillRect (x + 2) (y + 2) barWidth (h - 4) barColor
      :: FillRect (x + 2 + barWidth) (y + 2) (w - 4 - barWidth) (h - 4)
                  TFT_BLACK
      :: rest /\
    barWidth = (w - 4) * percent / 100 /\
    0 <= barWidth <= w - 4 /\
    (percent = 0 -> barWidth = 0) /\
    (percent = 100 -> barWidth = w - 4).
Proof.
  intros Hw Hp. unfold drawProgressBar.
  assert (Hq : ((w - 4) * percent) ÷ 100 = (w - 4) * percent / 100)
    by (apply Z.quot_div_nonneg; nia).
  assert (Hb : 0 <= (w - 4) * percent / 100 <= w - 4).
  { split; [apply Z.div_pos; nia|].
    apply Z.div_le_upper_bound; nia. }
  assert (Hu : to_uint16 (((w - 4) * percent) ÷ 100)
               = (w - 4) * percent / 100).
  { unfold to_uint16. rewrite Hq. apply Z.mod_small. lia. }
  rewrite Hu. eexists. eexists. split; [reflexivity|].
  split; [reflexivity|]. split; [exact Hb|]. split.
  - intros ->. rewrite Z.mul_0_r. reflexivity.
  - intros ->. apply Z.div_mul. lia.
Qed.

End DisplayFacts.

Section UsageFacts.

Import Display.
Local Open Scope R_scope.

Lemma truncate_nonneg (r : R) :
  0 <= r -> (0 <= truncate r)%Z /\ IZR (truncate r) <= r < IZR (truncate r) + 1.
Proof.
  intros Hr. unfold truncate. destruct (Rle_dec 0 r) as [_|Hn]; [|lra].
  destruct (base_Int_part r) as [Hle Hgt].
  split; [|lra].
  assert (Hlt : -1 < IZR (Int_part r)) by lra.
  apply lt_IZR in Hlt. lia.
Qed.

(** X28. For a power that is not negative the percentage of the usage bar
    is between 0 and 100: it is 100 from 2000 W on and 0 below 20 W. *)
Theorem usagePercent_range (powerWatts : R) :
  0 <= powerWatts ->
  (0 <= usagePercent powerWatts <= 100)%Z /\
  (2000 <= powerWatts -> usagePercent powerWatts = 100%Z) /\
  (powerWatts < 20 -> usagePercent powerWatts = 0%Z).
Proof.
  intros Hp. unfold usagePercent.
  set (x := powerWatts * 100 / 2000).
  assert (Hx : 0 <= x) by (subst x; lra).
  destruct (truncate_nonneg x Hx) as [Ht [Hlo Hhi]].
  set (t := truncate x) in *.
  assert (Hmin : (0 <= Z.min 100 t <= 100)%Z) by lia.
  unfold to_uint8. rewrite Z.mod_small by lia.
  split; [exact Hmin|]. split.
  - intros Hbig. assert (Hx100 : 100 <= x) by (subst x; lra).
    assert (Hlt : 99 < IZR t) by lra.
    apply lt_IZR in Hlt. lia.
  - intros Hsmall. assert (Hx1 : x < 1) by (subst x; lra).
    assert (Hlt : IZR t < 1) by lra.
    apply lt_IZR in Hlt. lia.
Qed.

End UsageFacts.

Section StorageFacts.

Import DataManager Storage.

(** X29. [setBackendUrl] changes the URL in memory whether or not it can
    be stored.  A configuration that was written is read back by
    [loadConfig] as the same URL, leaving the buffer alone; when the file
    was opened but nothing could be written, the next [loadConfig] fails
    and changes nothing; when the file could not be opened it is left as
    it was. *)
Theorem saveConfig_loadConfig_roundtrip (other : JsonValue -> string)
    (url : string) (dm restarted : DataManager.t) (file : File)
    (opened : bool) :
  let ok := setBackendUrl true true url dm file in
  let failed := setBackendUrl opened false url dm file in
  backendUrl (fst ok) = url /\
  backendUrl (fst failed) = url /\
  loadConfig other (snd ok) restarted
  = (true, {| backendUrl := url; dataBuffer := dataBuffer restarted |}) /\
  (opened = true ->
   loadConfig other (snd failed) restarted = (false, restarted)) /\
  (opened = false -> snd failed = file).
Proof.
  cbv zeta. unfold setBackendUrl, saveConfig.
  cbn [negb fst snd backendUrl]. repeat split.
  - intros ->. reflexivity.
  - intros ->. reflexivity.
Qed.

End StorageFacts.

(** ** Further properties: worked inputs *)

Section MoreExamples.

Import PowerMonitor AiProcessor Stats TrendSpec.

Lemma calculateRMSCurrent_floor_gap_witness :
  calculateRMSCurrent 0 PowerMonitor.init
  <= calculateRMSCurrent 0.01 PowerMonitor.init.
Proof.
  apply (calculateRMSCurrent_floor_gap 0 0.01 PowerMonitor.init).
  - simpl. lra.
  - lra.
Defined.

Lemma update_run_energy_monotone_witness :
  energyKwh Samples.loaded
  <= energyKwh
       (fold_left (fun m c => PowerMonitor.update (fst c) (snd c) m)
                  [(Samples.midscale, 1000%Z)] Samples.loaded).
Proof.
  apply (update_run_energy_monotone
           [(Samples.midscale, 1000%Z)] [(Samples.midscale, 2000%Z)]
           Samples.loaded).
  - simpl. lra.
  - simpl. lra.
Defined.

Lemma prediction_never_negative_witness :
  0 <= getPredictedPower
         (fold_left (fun a d => AiProcessor.update d a)
                    [Samples.watts 100; Samples.watts 50] AiProcessor.init).
Proof.
  apply (prediction_never_negative [Samples.watts 100; Samples.watts 50]).
  repeat constructor; simpl; lra.
Defined.


End MoreExamples.

Section DeliveryWitnesses.

Import DataManager DeliverySpec Main Timing Cycle.

Lemma sendBufferedData_flag_witness :
  sendBufferedData DataManager.init (boot Samples.dead)
  = ((true, DataManager.init), boot Samples.dead) /\
  fst (fst (sendBufferedData (Samples.holding [Samples.watts 100])
                             (boot Samples.flaky))) = true.
Proof.
  split.
  - apply (sendBufferedData_flag DataManager.init (boot Samples.dead)).
    reflexivity.
  - apply (sendBufferedData_flag (Samples.holding [Samples.watts 100])
             (boot Samples.flaky)).
    + discriminate.
    + exists (mkAttempted (Samples.watts 100) 3 true).
      split; [left; reflexivity | reflexivity].
Defined.

Lemma sendBufferedData_extremes_witness :
  dataBuffer
    (snd (fst (sendBufferedData (Samples.holding [Samples.watts 100])
                                (boot Samples.healthy)))) = [] /\
  dataBuffer
    (snd (fst (sendBufferedData (Samples.holding [Samples.watts 100])
                                (boot Samples.dead))))
  = [Samples.watts 100].
Proof.
  split.
  - apply (sendBufferedData_extremes (Samples.holding [Samples.watts 100])
             (boot Samples.healthy)).
    intros k _. reflexivity.
  - apply (sendBufferedData_extremes (Samples.holding [Samples.watts 100])
             (boot Samples.dead)).
    intros k _. discriminate.
Defined.

Lemma bufferData_keeps_newest_witness :
  dataBuffer
    (fold_left (fun m d => bufferData d m)
               [Samples.watts 1; Samples.watts 2] DataManager.init)
  = skipn (2 - DATA_BUFFER_SIZE) [Samples.watts 1; Samples.watts 2].
Proof.
  apply (bufferData_keeps_newest [Samples.watts 1; Samples.watts 2]
           DataManager.init).
  reflexivity.
Defined.

Lemma deliver_keeps_or_delivers_witness :
  deliver false (Samples.watts 1) DataManager.init (boot Samples.dead)
  = (bufferData (Samples.watts 1) DataManager.init, boot Samples.dead).
Proof.
  apply (deliver_keeps_or_delivers false (Samples.watts 1) DataManager.init
           (boot Samples.dead)).
  reflexivity.
Defined.

Lemma deliverAll_bounded_witness :
  (length
     (dataBuffer
        (fst (deliverAll [(false, Samples.watts 1); (true, Samples.watts 2)]
                         DataManager.init (boot Samples.dead))))
   <= DATA_BUFFER_SIZE)%nat.
Proof.
  apply (deliverAll_bounded
           [(false, Samples.watts 1); (true, Samples.watts 2)]
           DataManager.init (boot Samples.dead)).
  cbn. lia.
Defined.

Lemma deliver_recovers_in_order_witness :
  dataBuffer
    (fst (deliver true (Samples.watts 2)
                  (Samples.holding [Samples.watts 1])
                  (boot Samples.healthy))) = [].
Proof.
  apply (deliver_recovers_in_order (Samples.watts 2)
           (Samples.holding [Samples.watts 1]) (boot Samples.healthy)).
  intros k _. reflexivity.
Defined.



Lemma due_survives_rollover_witness :
  due ((4294967000 + 5296) mod ULONG_MODULUS) 4294967000 sendInterval
  = (sendInterval <=? 5296)%Z.
Proof.
  apply (due_survives_rollover 4294967000 5296 sendInterval);
    unfold ULONG_MODULUS; lia.
Defined.

End DeliveryWitnesses.

Section GlueWitnesses.

Import NetworkManager ConfigButton Display Storage.

Lemma configureNTP_waits_witness :
  exists retry,
    snd (configureNTP Samples.unsynced NetworkManager.init)
    = ConfigTime :: repeat (Wait 1000) retry /\
    ntpConfigured (fst (configureNTP Samples.unsynced NetworkManager.init))
    = false.
Proof.
  destruct (configureNTP_waits Samples.unsynced NetworkManager.init)
    as (retry & _ & Hacts & _ & Hall & Hoff & _).
  exists retry. split; [exact Hacts|].
  apply Hoff. apply Hall. intros k _. unfold Samples.unsynced. lia.
Defined.

Lemma updates_space_reconnects_witness :
  connectAttempts
    (snd (updates [Samples.seen false 5000; Samples.seen false 10000]
                  NetworkManager.init)) = 0%nat /\
  connectAttempts
    (snd (update (Samples.seen false 10001) NetworkManager.init)) = 1%nat.
Proof.
  split.
  - apply (updates_space_reconnects
             [Samples.seen false 5000; Samples.seen false 10000]
             NetworkManager.init (Samples.seen false 10001)).
    + simpl. lia.
    + simpl. unfold CONNECTION_TIMEOUT, ULONG_MODULUS. lia.
    + intros j [<-|[<-|[]]]; simpl; unfold CONNECTION_TIMEOUT; lia.
  - apply (updates_space_reconnects [] NetworkManager.init
             (Samples.seen false 10001)).
    + simpl. lia.
    + simpl. unfold CONNECTION_TIMEOUT, ULONG_MODULUS. lia.
    + reflexivity.
    + simpl. unfold CONNECTION_TIMEOUT, ULONG_MODULUS. lia.
Defined.

Lemma checkConfigButton_debounce_witness :
  snd (checkConfigButton LOW 1000 1001 ConfigButton.init) = false /\
  snd (checkConfigButton LOW 0 2000
         {| lastButtonState := LOW; lastDebounceTime := 1000 |}) = true.
Proof.
  split.
  - apply (checkConfigButton_debounce LOW 1000 1001 ConfigButton.init).
    + discriminate.
    + lia.
    + unfold debounceDelay. lia.
    + unfold ULONG_MODULUS. lia.
  - apply (checkConfigButton_debounce LOW 0 2000
             {| lastButtonState := LOW; lastDebounceTime := 1000 |}).
    + reflexivity.
    + reflexivity.
    + simpl. lia.
    + simpl. unfold debounceDelay, ULONG_MODULUS. lia.
Defined.

Lemma drawProgressBar_tiles_witness :
  exists barWidth rest,
    drawProgressBar 10 145 300 20 50 TFT_DARKGREY TFT_GREEN
    = DrawRect 10 145 300 20 TFT_DARKGREY
      :: FillRect (10 + 2) (145 + 2) barWidth (20 - 4) TFT_GREEN
      :: FillRect (10 + 2 + barWidth) (145 + 2) (300 - 4 - barWidth)
                  (20 - 4) TFT_BLACK
      :: rest /\
    barWidth = 148%Z.
Proof.
  destruct (drawProgressBar_tiles 10 145 300 20 50 TFT_DARKGREY TFT_GREEN)
    as (barWidth & rest & Hdraw & Hwidth & _); [lia | lia |].
  exists barWidth, rest. split; [exact Hdraw|].
  rewrite Hwidth. reflexivity.
Defined.

Lemma usagePercent_range_witness :
  usagePercent 2500 = 100%Z /\ usagePercent 10 = 0%Z.
Proof.
  split.
  - apply (usagePercent_range 2500); lra.
  - apply (usagePercent_range 10); lra.
Defined.

Lemma saveConfig_loadConfig_roundtrip_witness :
  loadConfig (fun _ => EmptyString)
    (snd (setBackendUrl true false "http://collector/api"
            DataManager.init Absent))
    DataManager.init
  = (false, DataManager.init).
Proof.
  apply (saveConfig_loadConfig_roundtrip (fun _ => EmptyString)
           "http://collector/api" DataManager.init DataManager.init Absent
           true).
  reflexivity.
Defined.

End GlueWitnesses.
